(** * IncomeHelper: tax computation and salary / investment projection

    A shallow embedding of the projection engine of [IncomeHelper.py]
    (classes [TaxCalculator] and [SalaryInvestmentProjector]) together with
    the properties stated for it.

    Number model.  The engine is embedded twice.  The first embedding is
    exact: a Python [float] is a rational ([Q], compared with [==]), a slab
    width may in addition be [float("inf")], so widths live in [amount], and
    the only exception is the [ZeroDivisionError] of a division; it carries
    the algebraic properties (monotonicity, bounds, caps), which hold of the
    program up to the rounding error of its float arithmetic.  The second
    embedding (module [F64]) is on IEEE-754 binary64 doubles, with the
    [round] of Python on a double and the [OverflowError] and [ValueError]
    it raises on an infinity and on a NaN; it carries the properties that
    depend on the digits the program prints or on what it raises.  Integers
    produced by [round] and the year index are in [Z].  The two worked
    scenarios are evaluated on binary64 floats as well (module
    [Binary64]). *)

From Stdlib Require Import QArith Qround Qabs ZArith List String Lia Lqa Bool.
From Stdlib Require Import Sorted PrimFloat Permutation.
From Stdlib Require FloatOps SpecFloat FloatAxioms.
From Stdlib Require Import Ascii Decimal DecimalString.
Import ListNotations.

Local Open Scope Q_scope.

(** ** Python primitives *)

Module Py.

(** The exception of exact arithmetic and the error monad that carries it.
    On rationals no value is an infinity or a NaN, so [round] has nothing to
    raise; [F64.exn] has the exceptions of the program on doubles. *)
Inductive exn : Set := ZeroDivisionError.

Inductive result (A : Type) : Type :=
| Ok (a : A)
| Raise (e : exn).
Arguments Ok {A} a.
Arguments Raise {A} e.

Definition bind {A B : Type} (c : result A) (k : A -> result B) : result B :=
  match c with
  | Ok a => k a
  | Raise e => Raise e
  end.

(** [a < b] on floats. *)
Definition ltb (a b : Q) : bool := negb (Qle_bool b a).

(** [a <= b] on floats. *)
Definition leb (a b : Q) : bool := Qle_bool a b.

(** [min(a, b)]: the first argument unless the second is strictly smaller. *)
Definition min (a b : Q) : Q := if ltb b a then b else a.

(** [max(a, b)]: the first argument unless the second is strictly larger. *)
Definition max (a b : Q) : Q := if ltb a b then b else a.

(** [a / b]: true division, raising on a zero divisor. *)
Definition div (a b : Q) : result Q :=
  if Qeq_bool b 0 then Raise ZeroDivisionError else Ok (a / b).

(** [round(x)] of an exact value: nearest integer, ties to the even
    neighbour.  [F64.round] applies it to the value of a double. *)
Definition round (x : Q) : Z :=
  let f := Qfloor x in
  match Qcompare (x - inject_Z f) (1 # 2) with
  | Lt => f
  | Gt => (f + 1)%Z
  | Eq => if Z.even f then f else (f + 1)%Z
  end.

(** [round(x, 2)] of an exact value: nearest multiple of 1/100, ties to
    even.  On a double the program rounds the binary value, which can fall
    on the other side of a tie; that is [F64.round2]. *)
Definition round2 (x : Q) : Q := inject_Z (round (x * 100)) / 100.

End Py.

Notation "x <- c ;; k" := (Py.bind c (fun x => k))
  (at level 61, c at next level, right associativity).
Notation "' pat <- c ;; k" := (Py.bind c (fun x => match x with pat => k end))
  (at level 61, pat pattern, c at next level, right associativity).

(** A slab width: a finite amount or [float("inf")]. *)
Inductive amount : Set :=
| Finite (q : Q)
| Infinity.

(** [min(remaining, slab_amount)] for a finite [remaining]. *)
Definition min_amount (remaining : Q) (slab_amount : amount) : Q :=
  match slab_amount with
  | Finite w => Py.min remaining w
  | Infinity => remaining
  end.

(** ** class TaxCalculator *)

Record TaxCalculator : Set := mkTaxCalculator {
  slabs : list (amount * Q);
  cess_rate : Q;
  std_deduction : Q
}.

Module TaxCalculatorDefaults.
Definition STD_DEDUCTION : Q := 50000.
Definition CESS_RATE : Q := 0.04.
Definition SLABS : list (amount * Q) :=
  [ (Finite 400000, 0.00);
    (Finite 400000, 0.05);
    (Finite 400000, 0.10);
    (Finite 400000, 0.15);
    (Finite 400000, 0.20);
    (Finite 400000, 0.25);
    (Infinity, 0.30) ].
End TaxCalculatorDefaults.
Import TaxCalculatorDefaults.

(** The [for slab_amount, rate in self.slabs] loop of [compute_tax], with its
    [break]; the state is [(remaining, tax)] and the loop's result is [tax]. *)
Fixpoint slab_loop (sl : list (amount * Q)) (remaining tax : Q) : Q :=
  match sl with
  | [] => tax
  | (slab_amount, rate) :: rest =>
      let take := min_amount remaining slab_amount in
      if Py.leb take 0 then tax
      else slab_loop rest (remaining - take) (tax + take * rate)
  end.

Definition compute_tax (self : TaxCalculator) (gross_yearly : Q) : Q :=
  let taxable_income := Py.max 0 (gross_yearly - std_deduction self) in
  if Py.leb taxable_income 0 then 0
  else
    let tax := slab_loop (slabs self) taxable_income 0 in
    tax + tax * cess_rate self.

(** ** class SalaryInvestmentProjector *)

(** The dictionary built by [project_year]: one entry per key, integers where
    the source stores [round(x)], rationals where it stores [round(x, 2)]. *)
Module Res.
Record t : Set := mk {
  year : Z;
  gross_yearly : Z;
  gross_monthly : Z;
  tax_yearly : Z;
  tax_monthly : Z;
  net_salary_yearly : Z;
  net_monthly : Z;
  common_ded_month : Z;
  other_deductions : Z;
  total_invest_yearly : Z;
  monthly_investment : Z;
  salary_left_month : Z;
  invest_percentage : Q;
  remarks : string;
  running_invest_total : Z;
  cumulative_return : Z;
  return_percentage : Q
}.

(** [res["year"] = y] *)
Definition set_year (res : t) (y : Z) : t :=
  mk y (gross_yearly res) (gross_monthly res) (tax_yearly res)
     (tax_monthly res) (net_salary_yearly res) (net_monthly res)
     (common_ded_month res) (other_deductions res)
     (total_invest_yearly res) (monthly_investment res)
     (salary_left_month res) (invest_percentage res) (remarks res)
     (running_invest_total res) (cumulative_return res)
     (return_percentage res).
End Res.

Record SalaryInvestmentProjector : Set := mkProjector {
  tax_calc : TaxCalculator;
  salary_hike_rate : Q;
  salary_cap : Q;
  invest_monthly_cap : Q
}.

Module ProjectorDefaults.
Definition SALARY_CAP : Q := 5000000.
Definition INVEST_MONTHLY_CAP : Q := 100000.
Definition SALARY_HIKE_RATE : Q := 0.05.
Definition PROF_TAX_MONTH : Q := 200.
End ProjectorDefaults.
Import ProjectorDefaults.

(** [value if value is not None else default] *)
Definition or_default {A : Type} (value : option A) (default : A) : A :=
  match value with
  | Some v => v
  | None => default
  end.

(** [TaxCalculator.__init__] *)
Definition TaxCalculator_init (slabs : option (list (amount * Q)))
    (cess_rate std_deduction : option Q) : TaxCalculator :=
  mkTaxCalculator (or_default slabs SLABS) (or_default cess_rate CESS_RATE)
                  (or_default std_deduction STD_DEDUCTION).

(** [SalaryInvestmentProjector.__init__] *)
Definition SalaryInvestmentProjector_init (tax_calc : option TaxCalculator)
    (salary_hike_rate salary_cap invest_monthly_cap : option Q)
  : SalaryInvestmentProjector :=
  mkProjector (or_default tax_calc (TaxCalculator_init None None None))
              (or_default salary_hike_rate SALARY_HIKE_RATE)
              (or_default salary_cap SALARY_CAP)
              (or_default invest_monthly_cap INVEST_MONTHLY_CAP).

Definition project_year (self : SalaryInvestmentProjector)
    (gross_yearly monthly_investment other_deductions
     running_invest_total cumulative_return expected_return : Q)
  : Py.result (Res.t * Q * Q) :=
  let basic := 0.40 * gross_yearly in
  let emp_pf := 0.12 * basic in
  let employer_pf := 0.12 * basic in
  let prof_tax_yearly := PROF_TAX_MONTH * 12 in
  let tax_yearly := compute_tax (tax_calc self) gross_yearly in
  let common_ded_yearly := emp_pf + employer_pf + prof_tax_yearly in
  common_ded_month <- Py.div common_ded_yearly 12 ;;
  let net_salary_yearly := gross_yearly - tax_yearly in
  net_monthly <- Py.div net_salary_yearly 12 ;;
  gross_monthly <- Py.div gross_yearly 12 ;;
  tax_monthly <- Py.div tax_yearly 12 ;;
  let monthly_investment_capped :=
    Py.min monthly_investment (invest_monthly_cap self) in
  let salary_left_month :=
    net_monthly - monthly_investment_capped - common_ded_month
    - other_deductions in
  invest_percentage <-
    (if Py.ltb 0 net_monthly
     then q <- Py.div monthly_investment_capped net_monthly ;; Py.Ok (q * 100)
     else Py.Ok 0) ;;
  let total_invest_yearly := monthly_investment_capped * 12 in
  let running_invest_total := running_invest_total + total_invest_yearly in
  rate <- Py.div expected_return 100 ;;
  let cumulative_return :=
    (cumulative_return + total_invest_yearly) * (1 + rate) in
  return_percentage <-
    (if Py.ltb 0 running_invest_total
     then q <- Py.div (cumulative_return - running_invest_total)
                      running_invest_total ;;
          Py.Ok (q * 100)
     else Py.Ok 0) ;;
  let remarks :=
    if Py.ltb 40 invest_percentage then "High"%string else "Good"%string in
  let result :=
    {| Res.year := 0;
       Res.gross_yearly := Py.round gross_yearly;
       Res.gross_monthly := Py.round gross_monthly;
       Res.tax_yearly := Py.round tax_yearly;
       Res.tax_monthly := Py.round tax_monthly;
       Res.net_salary_yearly := Py.round net_salary_yearly;
       Res.net_monthly := Py.round net_monthly;
       Res.common_ded_month := Py.round common_ded_month;
       Res.other_deductions := Py.round other_deductions;
       Res.total_invest_yearly := Py.round total_invest_yearly;
       Res.monthly_investment := Py.round monthly_investment_capped;
       Res.salary_left_month := Py.round salary_left_month;
       Res.invest_percentage := Py.round2 invest_percentage;
       Res.remarks := remarks;
       Res.running_invest_total := Py.round running_invest_total;
       Res.cumulative_return := Py.round cumulative_return;
       Res.return_percentage := Py.round2 return_percentage |} in
  Py.Ok (result, running_invest_total, cumulative_return).

(** The body of [for y in range(1, years + 1)], iterated [n] more times from
    year index [y]; the loop state is
    [(gross, monthly_invest, running_invest_total, cumulative_return)] and
    each iteration appends its record to [results]. *)
Fixpoint projection_loop (self : SalaryInvestmentProjector) (n : nat) (y : Z)
    (invest_hike_percent expected_return other_deductions : Q)
    (gross monthly_invest running_invest_total cumulative_return : Q)
  : Py.result (list Res.t) :=
  match n with
  | O => Py.Ok []
  | S n' =>
      '(res, running_invest_total, cumulative_return) <-
        project_year self gross monthly_invest other_deductions
                     running_invest_total cumulative_return expected_return ;;
      let res := Res.set_year res y in
      let gross := Py.min (gross * (1 + salary_hike_rate self)) SALARY_CAP in
      hike <- Py.div invest_hike_percent 100 ;;
      let monthly_invest :=
        Py.min (monthly_invest * (1 + hike)) (invest_monthly_cap self) in
      results <- projection_loop self n' (y + 1) invest_hike_percent
                   expected_return other_deductions
                   gross monthly_invest running_invest_total
                   cumulative_return ;;
      Py.Ok (res :: results)
  end.

(** [range(1, years + 1)] has [max(0, years)] elements. *)
Definition run_projection (self : SalaryInvestmentProjector)
    (start_gross : Q) (years : Z)
    (start_monthly_investment invest_hike_percent expected_return
     other_deductions : Q)
  : Py.result (list Res.t) :=
  let gross := start_gross in
  let monthly_invest := start_monthly_investment in
  let running_invest_total := 0 in
  let cumulative_return := 0 in
  projection_loop self (Z.to_nat years) 1 invest_hike_percent expected_return
                  other_deductions gross monthly_invest running_invest_total
                  cumulative_return.

Definition default_projector : SalaryInvestmentProjector :=
  SalaryInvestmentProjector_init None None None None.

(** ** The same arithmetic on IEEE-754 doubles

    [compute_tax] and the unrounded totals of [project_year] once more, on
    binary64 floats instead of rationals.  It is used to evaluate the two
    scenarios exactly as a Python interpreter does, rounding errors
    included. *)
Module Binary64.

#[local] Set Warnings "-inexact-float".
Local Open Scope float_scope.

Definition min (a b : float) : float := if b <? a then b else a.
Definition max (a b : float) : float := if a <? b then b else a.

Definition SLABS : list (float * float) :=
  [ (400000, 0.00);
    (400000, 0.05);
    (400000, 0.10);
    (400000, 0.15);
    (400000, 0.20);
    (400000, 0.25);
    (infinity, 0.30) ].
Definition CESS_RATE : float := 0.04.
Definition STD_DEDUCTION : float := 50000.
Definition INVEST_MONTHLY_CAP : float := 100000.

Fixpoint slab_loop (sl : list (float * float)) (remaining tax : float)
  : float :=
  match sl with
  | [] => tax
  | (slab_amount, rate) :: rest =>
      let take := min remaining slab_amount in
      if take <=? 0 then tax
      else slab_loop rest (remaining - take) (tax + take * rate)
  end.

Definition compute_tax (gross_yearly : float) : float :=
  let taxable_income := max 0 (gross_yearly - STD_DEDUCTION) in
  if taxable_income <=? 0 then 0
  else
    let tax := slab_loop SLABS taxable_income 0 in
    tax + tax * CESS_RATE.

(** The investment part of [project_year] before rounding:
    [(total_invest_yearly, running_invest_total, cumulative_return,
      return_percentage)].  The guarded quotient is only taken on a positive
    divisor, so it does not raise. *)
Definition project_year_totals
    (monthly_investment running_invest_total cumulative_return
     expected_return : float) : float * float * float * float :=
  let monthly_investment_capped := min monthly_investment INVEST_MONTHLY_CAP in
  let total_invest_yearly := monthly_investment_capped * 12 in
  let running_invest_total := running_invest_total + total_invest_yearly in
  let cumulative_return :=
    (cumulative_return + total_invest_yearly) * (1 + expected_return / 100) in
  let return_percentage :=
    if 0 <? running_invest_total
    then (cumulative_return - running_invest_total)
         / running_invest_total * 100
    else 0 in
  (total_invest_yearly, running_invest_total, cumulative_return,
   return_percentage).

End Binary64.

(** ** The engine on IEEE-754 doubles, with Python's [round]

    [TaxCalculator] and [SalaryInvestmentProjector] once more, this time on
    binary64 floats with the exceptions the code can raise.  A Python [int]
    that reaches the arithmetic (the class constants, the literal [0] of a
    guarded quotient) is the double of the same value.  [round(x)] rounds
    the exact value of the double [x] to the nearest integer, ties to even,
    and raises [OverflowError] on an infinity and [ValueError] on a NaN;
    [round(x, 2)] is the double nearest to the exact value of [x] rounded to
    hundredths, with the sign of [x], and returns an infinity or a NaN
    unchanged.  Float arithmetic itself never raises, except for a division
    by zero. *)
Module F64.

#[local] Set Warnings "-inexact-float".
Local Open Scope float_scope.

Inductive exn : Set := ZeroDivisionError | OverflowError | ValueError.

Inductive result (A : Type) : Type :=
| Ok (a : A)
| Raise (e : exn).
Arguments Ok {A} a.
Arguments Raise {A} e.

Definition bind {A B : Type} (c : result A) (k : A -> result B) : result B :=
  match c with
  | Ok a => k a
  | Raise e => Raise e
  end.

Declare Scope f64_scope.
Notation "x <- c ;; k" := (bind c (fun x => k))
  (at level 61, c at next level, right associativity) : f64_scope.
Notation "' pat <- c ;; k" := (bind c (fun x => match x with pat => k end))
  (at level 61, pat pattern, c at next level, right associativity) : f64_scope.
Local Open Scope f64_scope.

(** [2 ** e] as a rational. *)
Definition pow2 (e : Z) : Q :=
  match e with
  | Z0 => 1%Q
  | Zpos p => inject_Z (Z.pow_pos 2 p)
  | Zneg p => (1 # Pos.pow 2 p)%Q
  end.

(** The exact value of a finite double; [None] for an infinity or a NaN. *)
Definition value (x : float) : option Q :=
  match FloatOps.Prim2SF x with
  | SpecFloat.S754_zero _ => Some 0%Q
  | SpecFloat.S754_finite s m e =>
      Some ((if s then inject_Z (Zneg m) else inject_Z (Zpos m)) * pow2 e)%Q
  | SpecFloat.S754_infinity _ | SpecFloat.S754_nan => None
  end.

(** [round(x)] *)
Definition round (x : float) : result Z :=
  match value x with
  | Some q => Ok (Py.round q)
  | None => Raise (if PrimFloat.is_nan x then ValueError else OverflowError)
  end.

(** The double nearest to [n / 100], ties to even. *)
Definition nearest_hundredth (n : positive) : float :=
  FloatOps.SF2Prim
    (SpecFloat.SFdiv FloatOps.prec FloatOps.emax
       (SpecFloat.S754_finite false n 0)
       (SpecFloat.S754_finite false 100 0)).

(** [round(x, 2)] *)
Definition round2 (x : float) : float :=
  match value (PrimFloat.abs x) with
  | None => x
  | Some q =>
      let r := match Py.round (q * 100) with
               | Zpos n => nearest_hundredth n
               | _ => 0
               end in
      if PrimFloat.get_sign x then - r else r
  end.

(** [a / b] *)
Definition div (a b : float) : result float :=
  if b =? 0 then Raise ZeroDivisionError else Ok (a / b).

(** [min(a, b)] and [max(a, b)] of Python, on doubles. *)
Definition min (a b : float) : float := if b <? a then b else a.
Definition max (a b : float) : float := if a <? b then b else a.

Record TaxCalculator : Set := mkTaxCalculator {
  slabs : list (float * float);
  cess_rate : float;
  std_deduction : float
}.

Definition STD_DEDUCTION : float := 50000.
Definition CESS_RATE : float := 0.04.
Definition SLABS : list (float * float) :=
  [ (400000, 0.00);
    (400000, 0.05);
    (400000, 0.10);
    (400000, 0.15);
    (400000, 0.20);
    (400000, 0.25);
    (infinity, 0.30) ].

Fixpoint slab_loop (sl : list (float * float)) (remaining tax : float)
  : float :=
  match sl with
  | [] => tax
  | (slab_amount, rate) :: rest =>
      let take := min remaining slab_amount in
      if take <=? 0 then tax
      else slab_loop rest (remaining - take) (tax + take * rate)
  end.

Definition compute_tax (self : TaxCalculator) (gross_yearly : float) : float :=
  let taxable_income := max 0 (gross_yearly - std_deduction self) in
  if taxable_income <=? 0 then 0
  else
    let tax := slab_loop (slabs self) taxable_income 0 in
    tax + tax * cess_rate self.

Module Res.
Record t : Set := mk {
  year : Z;
  gross_yearly : Z;
  gross_monthly : Z;
  tax_yearly : Z;
  tax_monthly : Z;
  net_salary_yearly : Z;
  net_monthly : Z;
  common_ded_month : Z;
  other_deductions : Z;
  total_invest_yearly : Z;
  monthly_investment : Z;
  salary_left_month : Z;
  invest_percentage : float;
  remarks : string;
  running_invest_total : Z;
  cumulative_return : Z;
  return_percentage : float
}.

(** [res["year"] = y] *)
Definition set_year (res : t) (y : Z) : t :=
  mk y (gross_yearly res) (gross_monthly res) (tax_yearly res)
     (tax_monthly res) (net_salary_yearly res) (net_monthly res)
     (common_ded_month res) (other_deductions res)
     (total_invest_yearly res) (monthly_investment res)
     (salary_left_month res) (invest_percentage res) (remarks res)
     (running_invest_total res) (cumulative_return res)
     (return_percentage res).
End Res.

Record SalaryInvestmentProjector : Set := mkProjector {
  tax_calc : TaxCalculator;
  salary_hike_rate : float;
  salary_cap : float;
  invest_monthly_cap : float
}.

Definition SALARY_CAP : float := 5000000.
Definition INVEST_MONTHLY_CAP : float := 100000.
Definition SALARY_HIKE_RATE : float := 0.05.
Definition PROF_TAX_MONTH : float := 200.

(** [SalaryInvestmentProjector()] with every argument left at [None]. *)
Definition default_projector : SalaryInvestmentProjector :=
  mkProjector (mkTaxCalculator SLABS CESS_RATE STD_DEDUCTION)
              SALARY_HIKE_RATE SALARY_CAP INVEST_MONTHLY_CAP.

Definition project_year (self : SalaryInvestmentProjector)
    (gross_yearly monthly_investment other_deductions
     running_invest_total cumulative_return expected_return : float)
  : result (Res.t * float * float) :=
  let basic := 0.40 * gross_yearly in
  let emp_pf := 0.12 * basic in
  let employer_pf := 0.12 * basic in
  let prof_tax_yearly := PROF_TAX_MONTH * 12 in
  let tax_yearly := compute_tax (tax_calc self) gross_yearly in
  let common_ded_yearly := emp_pf + employer_pf + prof_tax_yearly in
  common_ded_month <- div common_ded_yearly 12 ;;
  let net_salary_yearly := gross_yearly - tax_yearly in
  net_monthly <- div net_salary_yearly 12 ;;
  gross_monthly <- div gross_yearly 12 ;;
  tax_monthly <- div tax_yearly 12 ;;
  let monthly_investment_capped :=
    min monthly_investment (invest_monthly_cap self) in
  let salary_left_month :=
    net_monthly - monthly_investment_capped - common_ded_month
    - other_deductions in
  invest_percentage <-
    (if 0 <? net_monthly
     then q <- div monthly_investment_capped net_monthly ;; Ok (q * 100)
     else Ok 0) ;;
  let total_invest_yearly := monthly_investment_capped * 12 in
  let running_invest_total := running_invest_total + total_invest_yearly in
  rate <- div expected_return 100 ;;
  let cumulative_return :=
    (cumulative_return + total_invest_yearly) * (1 + rate) in
  return_percentage <-
    (if 0 <? running_invest_total
     then q <- div (cumulative_return - running_invest_total)
                   running_invest_total ;;
          Ok (q * 100)
     else Ok 0) ;;
  let remarks :=
    if 40 <? invest_percentage then "High"%string else "Good"%string in
  r_gross_yearly <- round gross_yearly ;;
  r_gross_monthly <- round gross_monthly ;;
  r_tax_yearly <- round tax_yearly ;;
  r_tax_monthly <- round tax_monthly ;;
  r_net_salary_yearly <- round net_salary_yearly ;;
  r_net_monthly <- round net_monthly ;;
  r_common_ded_month <- round common_ded_month ;;
  r_other_deductions <- round other_deductions ;;
  r_total_invest_yearly <- round total_invest_yearly ;;
  r_monthly_investment <- round monthly_investment_capped ;;
  r_salary_left_month <- round salary_left_month ;;
  let r_invest_percentage := round2 invest_percentage in
  r_running_invest_total <- round running_invest_total ;;
  r_cumulative_return <- round cumulative_return ;;
  let r_return_percentage := round2 return_percentage in
  let result :=
    {| Res.year := 0;
       Res.gross_yearly := r_gross_yearly;
       Res.gross_monthly := r_gross_monthly;
       Res.tax_yearly := r_tax_yearly;
       Res.tax_monthly := r_tax_monthly;
       Res.net_salary_yearly := r_net_salary_yearly;
       Res.net_monthly := r_net_monthly;
       Res.common_ded_month := r_common_ded_month;
       Res.other_deductions := r_other_deductions;
       Res.total_invest_yearly := r_total_invest_yearly;
       Res.monthly_investment := r_monthly_investment;
       Res.salary_left_month := r_salary_left_month;
       Res.invest_percentage := r_invest_percentage;
       Res.remarks := remarks;
       Res.running_invest_total := r_running_invest_total;
       Res.cumulative_return := r_cumulative_return;
       Res.return_percentage := r_return_percentage |} in
  Ok (result, running_invest_total, cumulative_return).

Fixpoint projection_loop (self : SalaryInvestmentProjector) (n : nat) (y : Z)
    (invest_hike_percent expected_return other_deductions : float)
    (gross monthly_invest running_invest_total cumulative_return : float)
  : result (list Res.t) :=
  match n with
  | O => Ok []
  | S n' =>
      '(res, running_invest_total, cumulative_return) <-
        project_year self gross monthly_invest other_deductions
                     running_invest_total cumulative_return expected_return ;;
      let res := Res.set_year res y in
      let gross := min (gross * (1 + salary_hike_rate self)) SALARY_CAP in
      hike <- div invest_hike_percent 100 ;;
      let monthly_invest :=
        min (monthly_invest * (1 + hike)) (invest_monthly_cap self) in
      results <- projection_loop self n' (y + 1) invest_hike_percent
                   expected_return other_deductions
                   gross monthly_invest running_invest_total
                   cumulative_return ;;
      Ok (res :: results)
  end.

Definition run_projection (self : SalaryInvestmentProjector)
    (start_gross : float) (years : Z)
    (start_monthly_investment invest_hike_percent expected_return
     other_deductions : float)
  : result (list Res.t) :=
  let gross := start_gross in
  let monthly_invest := start_monthly_investment in
  let running_invest_total := 0 in
  let cumulative_return := 0 in
  projection_loop self (Z.to_nat years) 1 invest_hike_percent expected_return
                  other_deductions gross monthly_invest running_invest_total
                  cumulative_return.

(** The full-precision doubles of one year, as [project_year] computes them
    before it builds the dictionary. *)
Section Year.

Variable self : SalaryInvestmentProjector.
Variables gross_yearly monthly_investment other_deductions : float.
Variables running_invest_total cumulative_return expected_return : float.

Definition tax_yearly : float := compute_tax (tax_calc self) gross_yearly.
Definition common_ded_month : float :=
  (0.12 * (0.40 * gross_yearly) + 0.12 * (0.40 * gross_yearly)
   + PROF_TAX_MONTH * 12) / 12.
Definition net_salary_yearly : float := gross_yearly - tax_yearly.
Definition net_monthly : float := net_salary_yearly / 12.
Definition gross_monthly : float := gross_yearly / 12.
Definition tax_monthly : float := tax_yearly / 12.
Definition monthly_investment_capped : float :=
  min monthly_investment (invest_monthly_cap self).
Definition salary_left_month : float :=
  net_monthly - monthly_investment_capped - common_ded_month
  - other_deductions.
Definition invest_percentage : float :=
  if 0 <? net_monthly
  then monthly_investment_capped / net_monthly * 100 else 0.
Definition total_invest_yearly : float := monthly_investment_capped * 12.
Definition next_running_invest_total : float :=
  running_invest_total + total_invest_yearly.
Definition next_cumulative_return : float :=
  (cumulative_return + total_invest_yearly) * (1 + expected_return / 100).
Definition return_percentage : float :=
  if 0 <? next_running_invest_total
  then (next_cumulative_return - next_running_invest_total)
       / next_running_invest_total * 100
  else 0.

End Year.

(** The integer [z] is the double [x] rounded to the nearest whole unit. *)
Definition rounds_to_unit (x : float) (z : Z) : Prop :=
  exists q : Q,
    value x = Some q /\ z = Py.round q /\
    (Qabs (inject_Z z - q) <= 1 # 2)%Q.

End F64.

(** ** Reports and analytics

    The parts of [save_report_excel] and [generate_analytics] that compute
    on the records.  The table of [generate_analytics] has one row per
    record and is indexed by year, so an index label is the [year] of its
    row. *)

(** The keys of the dictionary built by [project_year], in insertion
    order. *)
Definition result_keys : list string :=
  [ "year"; "gross_yearly"; "gross_monthly"; "tax_yearly"; "tax_monthly";
    "net_salary_yearly"; "net_monthly"; "common_ded_month";
    "other_deductions"; "total_invest_yearly"; "monthly_investment";
    "salary_left_month"; "invest_percentage"; "remarks";
    "running_invest_total"; "cumulative_return"; "return_percentage" ]%string.

(** [["year"] + [c for c in df.columns if c != "year"]] *)
Definition excel_cols (columns : list string) : list string :=
  "year"%string :: filter (fun c => negb (String.eqb c "year")) columns.

Definition str (z : Z) : string := NilZero.string_of_int (Z.to_int z).








(** The [yearly_return] column:
    [cumulative_return - (cumulative_return.shift(1).fillna(0)
                          + total_invest_yearly)]. *)
Fixpoint yearly_return_from (prev_cum : Z) (projections : list Res.t)
  : list Z :=
  match projections with
  | [] => []
  | p :: rest =>
      (Res.cumulative_return p - (prev_cum + Res.total_invest_yearly p))%Z
      :: yearly_return_from (Res.cumulative_return p) rest
  end.

Definition yearly_return (projections : list Res.t) : list Z :=
  yearly_return_from 0 projections.

(** ** The table of [save_report_text]

    The header line, the dashed rule and the data rows that
    [save_report_text] writes after the column descriptions.  A replacement
    field [{x:<w}] is [str(x)] padded with spaces on the right up to [w]
    characters and never cut; [{x:<w.2f}] pads the fixed-point rendering of
    a float, which is left as the parameter [format_2f]. *)
Module TextReport.
Section Table.

Local Open Scope string_scope.

Variable format_2f : Q -> string.

Definition widths : list (string * nat) :=
  [ ("year", 5); ("gross_yearly", 10); ("gross_monthly", 10);
    ("tax_yearly", 8); ("tax_monthly", 8); ("net_salary_yearly", 8);
    ("net_monthly", 8); ("common_ded_month", 14); ("other_deductions", 13);
    ("total_invest_yearly", 10); ("monthly_investment", 10);
    ("salary_left_month", 13); ("invest_percentage", 10); ("remarks", 8);
    ("running_invest_total", 16); ("cumulative_return", 18);
    ("return_percentage", 12) ]%nat.

(** [widths[key]] for a key of the dictionary. *)
Definition width (key : string) : nat :=
  match find (fun kw => String.eqb (fst kw) key) widths with
  | Some (_, w) => w
  | None => O
  end.

(** [" " * n] and ["-" * n] *)
Fixpoint replicate (c : ascii) (n : nat) : string :=
  match n with
  | O => EmptyString
  | S n' => String c (replicate c n')
  end.

(** [f"{s:<{w}}"] *)
Definition ljust (s : string) (w : nat) : string :=
  s ++ replicate " "%char (w - String.length s).

Definition header : string :=
  ljust "Year" (width "year") ++ "|" ++
  ljust "Gross/Y" (width "gross_yearly") ++ "|" ++
  ljust "Gross/M" (width "gross_monthly") ++ "|" ++
  ljust "Tax/Y" (width "tax_yearly") ++ "|" ++
  ljust "Tax/M" (width "tax_monthly") ++ "|" ++
  ljust "Net/Y" (width "net_salary_yearly") ++ "|" ++
  ljust "Net/M" (width "net_monthly") ++ "|" ++
  ljust "Common Ded/M" (width "common_ded_month") ++ "|" ++
  ljust "Other Ded/M" (width "other_deductions") ++ "|" ++
  ljust "Invest/Y" (width "total_invest_yearly") ++ "|" ++
  ljust "Invest/M" (width "monthly_investment") ++ "|" ++
  ljust "Invest %" (width "invest_percentage") ++ "|" ++
  ljust "Salary Left/M" (width "salary_left_month") ++ "|" ++
  ljust "Remarks" (width "remarks") ++ "|" ++
  ljust "Running Invest/Y" (width "running_invest_total") ++ "|" ++
  ljust "Cumulative Return/Y" (width "cumulative_return") ++ "|" ++
  ljust "Return %" (width "return_percentage").

(** ["-" * len(header)] *)
Definition rule : string := replicate "-"%char (String.length header).

Definition row (p : Res.t) : string :=
  ljust (str (Res.year p)) (width "year") ++ "|" ++
  ljust (str (Res.gross_yearly p)) (width "gross_yearly") ++ "|" ++
  ljust (str (Res.gross_monthly p)) (width "gross_monthly") ++ "|" ++
  ljust (str (Res.tax_yearly p)) (width "tax_yearly") ++ "|" ++
  ljust (str (Res.tax_monthly p)) (width "tax_monthly") ++ "|" ++
  ljust (str (Res.net_salary_yearly p)) (width "net_salary_yearly") ++ "|" ++
  ljust (str (Res.net_monthly p)) (width "net_monthly") ++ "|" ++
  ljust (str (Res.common_ded_month p)) (width "common_ded_month") ++ "|" ++
  ljust (str (Res.other_deductions p)) (width "other_deductions") ++ "|" ++
  ljust (str (Res.total_invest_yearly p)) (width "total_invest_yearly")
    ++ "|" ++
  ljust (str (Res.monthly_investment p)) (width "monthly_investment")
    ++ "|" ++
  ljust (format_2f (Res.invest_percentage p)) (width "invest_percentage")
    ++ "|" ++
  ljust (str (Res.salary_left_month p)) (width "salary_left_month") ++ "|" ++
  ljust (Res.remarks p) (width "remarks") ++ "|" ++
  ljust (str (Res.running_invest_total p)) (width "running_invest_total")
    ++ "|" ++
  ljust (str (Res.cumulative_return p)) (width "cumulative_return") ++ "|" ++
  ljust (format_2f (Res.return_percentage p)) (width "return_percentage").

(** The lines of the table, in the order written. *)
Definition table (projections : list Res.t) : list string :=
  header :: rule :: map row projections.

(** Every value of the record fits the width of its column. *)
Definition fits (p : Res.t) : Prop :=
  (String.length (str (Res.year p)) <= 5 /\
   String.length (str (Res.gross_yearly p)) <= 10 /\
   String.length (str (Res.gross_monthly p)) <= 10 /\
   String.length (str (Res.tax_yearly p)) <= 8 /\
   String.length (str (Res.tax_monthly p)) <= 8 /\
   String.length (str (Res.net_salary_yearly p)) <= 8 /\
   String.length (str (Res.net_monthly p)) <= 8 /\
   String.length (str (Res.common_ded_month p)) <= 14 /\
   String.length (str (Res.other_deductions p)) <= 13 /\
   String.length (str (Res.total_invest_yearly p)) <= 10 /\
   String.length (str (Res.monthly_investment p)) <= 10 /\
   String.length (format_2f (Res.invest_percentage p)) <= 10 /\
   String.length (str (Res.salary_left_month p)) <= 13 /\
   String.length (Res.remarks p) <= 8 /\
   String.length (str (Res.running_invest_total p)) <= 16 /\
   String.length (str (Res.cumulative_return p)) <= 18 /\
   String.length (format_2f (Res.return_percentage p)) <= 12)%nat.

End Table.
End TextReport.

(** A fixed-point rendering with two decimals of a rational, rounded to
    hundredths: an instance of [format_2f] (a float that is a negative zero
    prints with a minus sign, which a rational cannot show). *)
Definition two_digits (n : Z) : string :=
  ((if (n <? 10)%Z then "0" else "") ++ str n)%string.

Definition fixed2 (q : Q) : string :=
  let n := Py.round (q * 100) in
  let a := Z.abs n in
  ((if (n <? 0)%Z then "-" else "") ++ str (a / 100) ++ "."
   ++ two_digits (a mod 100))%string.

(** ** Vocabulary of the properties *)

(** Every bracket rate of the table is non-negative. *)
Definition nonneg_rates (sl : list (amount * Q)) : Prop :=
  Forall (fun s => 0 <= snd s) sl.

(** The table read as finite [(width, rate)] pairs, when no width is
    [float("inf")]. *)
Fixpoint finite_slabs (sl : list (amount * Q)) : option (list (Q * Q)) :=
  match sl with
  | [] => Some []
  | (Finite w, rate) :: rest => option_map (cons (w, rate)) (finite_slabs rest)
  | (Infinity, _) :: _ => None
  end.

(** Total width [W] of a finite table. *)
Definition total_width (fs : list (Q * Q)) : Q :=
  fold_right (fun s acc => fst s + acc) 0 fs.

(** Bracket tax of a finite table consumed in full: every width at its rate. *)
Definition full_table_tax (fs : list (Q * Q)) : Q :=
  fold_right (fun s acc => fst s * snd s + acc) 0 fs.

Definition positive_widths (fs : list (Q * Q)) : Prop :=
  Forall (fun s => 0 < fst s) fs.

(** The taxable base of [compute_tax]. *)
Definition taxable_base (tc : TaxCalculator) (gross : Q) : Q :=
  Py.max 0 (gross - std_deduction tc).

(** C7, as stated: whenever the widths of a finite table sum to [W] and the
    taxable base exceeds [W], the tax is the bracket tax of the whole table
    scaled by the cess. *)
Definition finite_table_claim (tc : TaxCalculator) (gross : Q) : Prop :=
  forall fs, finite_slabs (slabs tc) = Some fs ->
    total_width fs < taxable_base tc gross ->
    compute_tax tc gross == full_table_tax fs * (1 + cess_rate tc).

(** The full-precision quantities of one year, as [project_year] computes
    them before any rounding. *)
Module Exact.
Section Year.

Variable self : SalaryInvestmentProjector.
Variables gross_yearly monthly_investment other_deductions : Q.
Variables running_invest_total cumulative_return expected_return : Q.

Definition tax_yearly : Q := compute_tax (tax_calc self) gross_yearly.
Definition common_ded_month : Q :=
  (0.12 * (0.40 * gross_yearly) + 0.12 * (0.40 * gross_yearly)
   + PROF_TAX_MONTH * 12) / 12.
Definition net_salary_yearly : Q := gross_yearly - tax_yearly.
Definition net_monthly : Q := net_salary_yearly / 12.
Definition monthly_investment_capped : Q :=
  Py.min monthly_investment (invest_monthly_cap self).
Definition salary_left_month : Q :=
  net_monthly - monthly_investment_capped - common_ded_month
  - other_deductions.
Definition invest_percentage : Q :=
  if Py.ltb 0 net_monthly
  then monthly_investment_capped / net_monthly * 100 else 0.
Definition total_invest_yearly : Q := monthly_investment_capped * 12.
Definition next_running_invest_total : Q :=
  running_invest_total + total_invest_yearly.
Definition next_cumulative_return : Q :=
  (cumulative_return + total_invest_yearly) * (1 + expected_return / 100).
Definition return_percentage : Q :=
  if Py.ltb 0 next_running_invest_total
  then (next_cumulative_return - next_running_invest_total)
       / next_running_invest_total * 100
  else 0.

End Year.
End Exact.
Import Exact.

(** C6, as stated: consecutive records report non-decreasing running
    totals. *)
Definition running_total_nondecreasing (results : list Res.t) : Prop :=
  forall i a b,
    nth_error results i = Some a -> nth_error results (S i) = Some b ->
    (Res.running_invest_total a <= Res.running_invest_total b)%Z.

(** ** Vocabulary of the further properties *)

(** The amount [d] fits in a bracket of width [a]. *)
Definition within (d : Q) (a : amount) : Prop :=
  match a with
  | Finite w => d <= w
  | Infinity => True
  end.

(** Every bracket rate lies between 0 and [R]. *)
Definition rates_within (R : Q) (sl : list (amount * Q)) : Prop :=
  Forall (fun s => 0 <= snd s <= R) sl.

(** The net yearly salary of [project_year]: gross minus tax. *)
Definition net_of (tc : TaxCalculator) (gross : Q) : Q :=
  gross - compute_tax tc gross.

(** The values [f] reads off consecutive records never decrease. *)
Definition nondecreasing (f : Res.t -> Z) (results : list Res.t) : Prop :=
  forall i a b,
    nth_error results i = Some a -> nth_error results (S i) = Some b ->
    (f a <= f b)%Z.

(** ** Facts about the Python primitives *)

Lemma ltb_true (a b : Q) : Py.ltb a b = true <-> a < b.
Proof.
  unfold Py.ltb. rewrite negb_true_iff, <- not_true_iff_false, Qle_bool_iff.
  split; [apply Qnot_le_lt | apply Qlt_not_le].
Qed.

Lemma ltb_false (a b : Q) : Py.ltb a b = false <-> b <= a.
Proof.
  unfold Py.ltb. rewrite negb_false_iff. apply Qle_bool_iff.
Qed.

Lemma leb_true (a b : Q) : Py.leb a b = true <-> a <= b.
Proof. apply Qle_bool_iff. Qed.

Lemma leb_false (a b : Q) : Py.leb a b = false <-> b < a.
Proof.
  unfold Py.leb. rewrite <- not_true_iff_false, Qle_bool_iff.
  split; [apply Qnot_le_lt | apply Qlt_not_le].
Qed.

(** Turns every boolean comparison of the goal and context into an order fact
    on [Q], splitting on its outcome. *)
Ltac split_cmp :=
  repeat match goal with
  | H : Py.ltb _ _ = true |- _ => apply ltb_true in H
  | H : Py.ltb _ _ = false |- _ => apply ltb_false in H
  | H : Py.leb _ _ = true |- _ => apply leb_true in H
  | H : Py.leb _ _ = false |- _ => apply leb_false in H
  | |- context [Py.ltb ?a ?b] => destruct (Py.ltb a b) eqn:?
  | |- context [Py.leb ?a ?b] => destruct (Py.leb a b) eqn:?
  end.

Lemma min_le_l (a b : Q) : Py.min a b <= a.
Proof. unfold Py.min. split_cmp; lra. Qed.

Lemma min_le_r (a b : Q) : Py.min a b <= b.
Proof. unfold Py.min. split_cmp; lra. Qed.

Lemma min_glb (a b c : Q) : c <= a -> c <= b -> c <= Py.min a b.
Proof. unfold Py.min. split_cmp; lra. Qed.

Lemma max_0_nonneg (x : Q) : 0 <= Py.max 0 x.
Proof. unfold Py.max. split_cmp; lra. Qed.

Lemma div_nonzero (a b : Q) : ~ b == 0 -> Py.div a b = Py.Ok (a / b).
Proof.
  intros Hb. unfold Py.div.
  destruct (Qeq_bool b 0) eqn:E; [|reflexivity].
  apply Qeq_bool_iff in E. contradiction.
Qed.

Lemma div_pos (a b : Q) : 0 < b -> Py.div a b = Py.Ok (a / b).
Proof. intros Hb. apply div_nonzero. lra. Qed.

Lemma floor_bounds (x : Q) :
  inject_Z (Qfloor x) <= x /\ x < inject_Z (Qfloor x) + 1.
Proof.
  split; [apply Qfloor_le|].
  pose proof (Qlt_floor x) as H. rewrite inject_Z_plus in H. exact H.
Qed.

(** [round] picks the floor or its successor. *)
Lemma round_cases (x : Q) :
  let f := Qfloor x in
  (Py.round x = f /\ x - inject_Z f <= 1 # 2) \/
  (Py.round x = (f + 1)%Z /\ 1 # 2 <= x - inject_Z f).
Proof.
  intros f. unfold Py.round. fold f.
  destruct (Qcompare_spec (x - inject_Z f) (1 # 2)).
  - destruct (Z.even f); [left | right]; split; auto; lra.
  - left. split; auto. lra.
  - right. split; auto. lra.
Qed.

(** [round(x)] is a nearest integer to [x]. *)
Lemma round_nearest (x : Q) : Qabs (inject_Z (Py.round x) - x) <= 1 # 2.
Proof.
  destruct (floor_bounds x) as [Hlo Hhi].
  apply Qabs_Qle_condition.
  destruct (round_cases x) as [[-> H] | [-> H]].
  - lra.
  - rewrite inject_Z_plus. change (inject_Z 1) with 1. lra.
Qed.

Lemma round_comp (x y : Q) : x == y -> Py.round x = Py.round y.
Proof.
  intros E. unfold Py.round.
  rewrite (Qfloor_comp _ _ E).
  assert (E' : x - inject_Z (Qfloor y) == y - inject_Z (Qfloor y)) by lra.
  rewrite (Qcompare_comp _ _ E' _ _ (Qeq_refl (1 # 2))). reflexivity.
Qed.

Lemma round_inject_Z (n : Z) : Py.round (inject_Z n) = n.
Proof.
  destruct (round_cases (inject_Z n)) as [[-> _] | [_ H]].
  - apply Qfloor_Z.
  - rewrite Qfloor_Z in H. lra.
Qed.

(** [round] is monotone. *)
Lemma round_mono (x y : Q) : x <= y -> (Py.round x <= Py.round y)%Z.
Proof.
  intros Hxy.
  destruct (floor_bounds x) as [Hxl Hxh], (floor_bounds y) as [Hyl Hyh].
  pose proof (Qfloor_resp_le _ _ Hxy) as Hf.
  destruct (Z.eq_dec (Qfloor x) (Qfloor y)) as [Ef | Nf].
  - unfold Py.round. rewrite <- Ef.
    destruct (Qcompare_spec (x - inject_Z (Qfloor x)) (1 # 2)),
             (Qcompare_spec (y - inject_Z (Qfloor x)) (1 # 2));
      try (destruct (Z.even (Qfloor x))); try lia; exfalso; lra.
  - assert (Py.round x <= Qfloor x + 1)%Z
      by (destruct (round_cases x) as [[-> _] | [-> _]]; lia).
    assert (Qfloor y <= Py.round y)%Z
      by (destruct (round_cases y) as [[-> _] | [-> _]]; lia).
    lia.
Qed.

(** ** Properties of [compute_tax] *)

Lemma min_amount_mono (r1 r2 : Q) (a : amount) :
  r1 <= r2 -> min_amount r1 a <= min_amount r2 a.
Proof. destruct a; simpl; [unfold Py.min; split_cmp|]; lra. Qed.

Lemma rest_mono (r1 r2 : Q) (a : amount) :
  r1 <= r2 -> r1 - min_amount r1 a <= r2 - min_amount r2 a.
Proof. destruct a; simpl; [unfold Py.min; split_cmp|]; lra. Qed.

(** The slab loop never lowers the accumulated tax. *)
Lemma slab_loop_ge (sl : list (amount * Q)) :
  nonneg_rates sl -> forall remaining tax, tax <= slab_loop sl remaining tax.
Proof.
  induction 1 as [| [a rate] rest Hr _ IH]; intros remaining tax; simpl.
  - lra.
  - simpl in Hr. split_cmp; [lra|].
    eapply Qle_trans; [|apply IH]. nra.
Qed.

(** The slab loop is monotone in its state. *)
Lemma slab_loop_mono (sl : list (amount * Q)) :
  nonneg_rates sl ->
  forall r1 r2 t1 t2, r1 <= r2 -> t1 <= t2 ->
    slab_loop sl r1 t1 <= slab_loop sl r2 t2.
Proof.
  induction 1 as [| [a rate] rest Hr Hrest IH]; intros r1 r2 t1 t2 Hrem Ht;
    simpl; [assumption|].
  simpl in Hr.
  pose proof (min_amount_mono _ _ a Hrem) as Htake.
  pose proof (rest_mono _ _ a Hrem) as Hleft.
  destruct (Py.leb (min_amount r1 a) 0) eqn:E1,
           (Py.leb (min_amount r2 a) 0) eqn:E2; split_cmp.
  - assumption.
  - eapply Qle_trans; [|apply slab_loop_ge; assumption]. nra.
  - lra.
  - apply IH; [assumption | nra].
Qed.

(** A finite table of positive widths is consumed in full by any remaining
    amount that covers it. *)
Lemma slab_loop_exhausts (sl : list (amount * Q)) :
  forall fs, finite_slabs sl = Some fs -> positive_widths fs ->
  forall remaining tax, total_width fs <= remaining ->
    slab_loop sl remaining tax == tax + full_table_tax fs.
Proof.
  induction sl as [| [[w|] rate] rest IH]; intros fs Hfs Hpos remaining tax Hrem;
    simpl in Hfs; try discriminate.
  - injection Hfs as <-. simpl. lra.
  - destruct (finite_slabs rest) as [fs'|]; [|discriminate].
    injection Hfs as <-. inversion Hpos as [| s l Hw Hpos']; subst.
    simpl in *.
    assert (0 <= total_width fs').
    { clear - Hpos'. induction Hpos'; simpl; [lra|].
      change (total_width l) with (fold_right (fun s acc => fst s + acc) 0 l) in *.
      lra. }
    change (fold_right (fun s acc => fst s + acc) 0 fs')
      with (total_width fs') in Hrem.
    change (fold_right (fun s acc => fst s * snd s + acc) 0 fs')
      with (full_table_tax fs').
    unfold Py.min. split_cmp; try lra.
    + rewrite (IH fs' eq_refl Hpos'); lra.
    + rewrite (IH fs' eq_refl Hpos'); [|lra].
      assert (remaining == w) by lra. nra.
Qed.

(** ** Properties of [project_year] *)

Lemma div_12 (a : Q) : Py.div a 12 = Py.Ok (a / 12).
Proof. reflexivity. Qed.

Lemma div_100 (a : Q) : Py.div a 100 = Py.Ok (a / 100).
Proof. reflexivity. Qed.

(** The guarded quotient [(a / b * 100) if b > 0 else 0] never raises. *)
Lemma guarded_percentage (a b : Q) :
  (if Py.ltb 0 b then q <- Py.div a b ;; Py.Ok (q * 100) else Py.Ok 0)
  = Py.Ok (if Py.ltb 0 b then a / b * 100 else 0).
Proof.
  destruct (Py.ltb 0 b) eqn:E; [|reflexivity].
  apply ltb_true in E. rewrite (div_pos _ _ E). reflexivity.
Qed.

(** [project_year] always returns, and this is what it returns. *)
Lemma project_year_eq (self : SalaryInvestmentProjector)
    (gross_yearly monthly_investment other_deductions
     running_invest_total cumulative_return expected_return : Q) :
  project_year self gross_yearly monthly_investment other_deductions
               running_invest_total cumulative_return expected_return
  = Py.Ok
      ({| Res.year := 0;
          Res.gross_yearly := Py.round gross_yearly;
          Res.gross_monthly := Py.round (gross_yearly / 12);
          Res.tax_yearly := Py.round (tax_yearly self gross_yearly);
          Res.tax_monthly := Py.round (tax_yearly self gross_yearly / 12);
          Res.net_salary_yearly :=
            Py.round (net_salary_yearly self gross_yearly);
          Res.net_monthly := Py.round (net_monthly self gross_yearly);
          Res.common_ded_month := Py.round (common_ded_month gross_yearly);
          Res.other_deductions := Py.round other_deductions;
          Res.total_invest_yearly :=
            Py.round (total_invest_yearly self monthly_investment);
          Res.monthly_investment :=
            Py.round (monthly_investment_capped self monthly_investment);
          Res.salary_left_month :=
            Py.round (salary_left_month self gross_yearly monthly_investment
                                        other_deductions);
          Res.invest_percentage :=
            Py.round2 (invest_percentage self gross_yearly monthly_investment);
          Res.remarks :=
            if Py.ltb 40 (invest_percentage self gross_yearly
                                            monthly_investment)
            then "High"%string else "Good"%string;
          Res.running_invest_total :=
            Py.round (next_running_invest_total self monthly_investment
                                                running_invest_total);
          Res.cumulative_return :=
            Py.round (next_cumulative_return self monthly_investment
                                             cumulative_return
                                             expected_return);
          Res.return_percentage :=
            Py.round2 (return_percentage self monthly_investment
                                         running_invest_total
                                         cumulative_return expected_return) |},
       next_running_invest_total self monthly_investment running_invest_total,
       next_cumulative_return self monthly_investment cumulative_return
                              expected_return).
Proof.
  unfold project_year. cbv zeta.
  rewrite !div_12. cbn [Py.bind].
  rewrite guarded_percentage. cbn [Py.bind].
  rewrite div_100. cbn [Py.bind].
  rewrite guarded_percentage. cbn [Py.bind].
  reflexivity.
Qed.

(** ** Properties of [run_projection] *)

(** One iteration of the loop, given what [project_year] returns. *)
Lemma projection_loop_step (self : SalaryInvestmentProjector) (n : nat) (y : Z)
    (ihp er od g m rit cr : Q) :
  projection_loop self (S n) y ihp er od g m rit cr =
  (results <- projection_loop self n (y + 1) ihp er od
                (Py.min (g * (1 + salary_hike_rate self)) SALARY_CAP)
                (Py.min (m * (1 + ihp / 100)) (invest_monthly_cap self))
                (next_running_invest_total self m rit)
                (next_cumulative_return self m cr er) ;;
   match project_year self g m od rit cr er with
   | Py.Ok (res, _, _) => Py.Ok (Res.set_year res y :: results)
   | Py.Raise e => Py.Raise e
   end).
Proof.
  cbn [projection_loop]. rewrite project_year_eq. cbn [Py.bind].
  rewrite div_100. cbn [Py.bind]. reflexivity.
Qed.

(** Inversion of a successful non-empty loop. *)
Lemma projection_loop_inv (self : SalaryInvestmentProjector) (n : nat) (y : Z)
    (ihp er od g m rit cr : Q) (results : list Res.t) :
  projection_loop self (S n) y ihp er od g m rit cr = Py.Ok results ->
  exists res rest,
    project_year self g m od rit cr er
      = Py.Ok (res, next_running_invest_total self m rit,
               next_cumulative_return self m cr er) /\
    projection_loop self n (y + 1) ihp er od
      (Py.min (g * (1 + salary_hike_rate self)) SALARY_CAP)
      (Py.min (m * (1 + ihp / 100)) (invest_monthly_cap self))
      (next_running_invest_total self m rit)
      (next_cumulative_return self m cr er) = Py.Ok rest /\
    results = Res.set_year res y :: rest.
Proof.
  rewrite projection_loop_step.
  destruct (projection_loop self n _ _ _ _ _ _ _ _) as [rest|e];
    cbn [Py.bind]; [|discriminate].
  rewrite project_year_eq. intros [= <-].
  eexists. exists rest. repeat split.
Qed.

(** In a sorted list every element is related to its successor. *)
Lemma Sorted_consecutive {A : Type} (R : A -> A -> Prop) (l : list A) :
  Sorted R l ->
  forall i a b, nth_error l i = Some a -> nth_error l (S i) = Some b -> R a b.
Proof.
  induction 1 as [| x l Hs IH Hd]; intros i a b Ha Hb.
  - destruct i; discriminate.
  - destruct i as [| i].
    + injection Ha as <-. destruct l as [| x' l']; [discriminate|].
      injection Hb as <-. now inversion Hd.
    + exact (IH i a b Ha Hb).
Qed.

(** With a non-negative monthly investment the running total reported by
    each record is at least the total the loop started from, and the
    reported totals are sorted. *)
Lemma projection_loop_running_sorted (self : SalaryInvestmentProjector)
    (ihp er od : Q) :
  0 <= invest_monthly_cap self -> -100 <= ihp ->
  forall n y g m rit cr results, 0 <= m ->
    projection_loop self n y ihp er od g m rit cr = Py.Ok results ->
    Sorted Z.le (Py.round rit :: map Res.running_invest_total results).
Proof.
  intros Hcap Hhike.
  induction n as [| n IH]; intros y g m rit cr results Hm Hrun.
  - injection Hrun as <-. repeat constructor.
  - apply projection_loop_inv in Hrun as (res & rest & Hres & Hrest & ->).
    rewrite project_year_eq in Hres. injection Hres as <-.
    apply IH in Hrest.
    + simpl. constructor; [exact Hrest|]. constructor.
      apply round_mono.
      unfold next_running_invest_total, total_invest_yearly,
        monthly_investment_capped.
      pose proof (min_glb m (invest_monthly_cap self) 0 Hm Hcap). lra.
    + apply min_glb; [|assumption].
      assert (0 <= 1 + ihp / 100).
      { unfold Qdiv. change (/ 100) with (1 # 100). lra. }
      nra.
Qed.

(** Every record reports a capped monthly investment that is at most the
    rounded configured cap. *)
Lemma projection_loop_invest_capped (self : SalaryInvestmentProjector)
    (ihp er od : Q) :
  forall n y g m rit cr results,
    projection_loop self n y ihp er od g m rit cr = Py.Ok results ->
    Forall (fun r => (Res.monthly_investment r
                      <= Py.round (invest_monthly_cap self))%Z) results.
Proof.
  induction n as [| n IH]; intros y g m rit cr results Hrun.
  - injection Hrun as <-. constructor.
  - apply projection_loop_inv in Hrun as (res & rest & Hres & Hrest & ->).
    rewrite project_year_eq in Hres. injection Hres as <-.
    constructor; [|exact (IH _ _ _ _ _ _ Hrest)].
    simpl. apply round_mono, min_le_r.
Qed.

(** From a gross salary within [SALARY_CAP], every record reports a gross
    salary within [SALARY_CAP]. *)
Lemma projection_loop_gross_capped (self : SalaryInvestmentProjector)
    (ihp er od : Q) :
  forall n y g m rit cr results, g <= SALARY_CAP ->
    projection_loop self n y ihp er od g m rit cr = Py.Ok results ->
    Forall (fun r => (Res.gross_yearly r <= 5000000)%Z) results.
Proof.
  induction n as [| n IH]; intros y g m rit cr results Hg Hrun.
  - injection Hrun as <-. constructor.
  - apply projection_loop_inv in Hrun as (res & rest & Hres & Hrest & ->).
    rewrite project_year_eq in Hres. injection Hres as <-.
    constructor; [|exact (IH _ _ _ _ _ _ (min_le_r _ _) Hrest)].
    simpl. change 5000000%Z with (Py.round SALARY_CAP).
    now apply round_mono.
Qed.

(** The configured monthly-investment cap bounds every reported monthly
    investment (up to the rounding of the cap itself). *)
Lemma run_projection_invest_capped (self : SalaryInvestmentProjector)
    (start_gross : Q) (years : Z) (smi ihp er od : Q) (results : list Res.t) :
  run_projection self start_gross years smi ihp er od = Py.Ok results ->
  Forall (fun r => (Res.monthly_investment r
                    <= Py.round (invest_monthly_cap self))%Z) results.
Proof. apply projection_loop_invest_capped. Qed.

(** Started within the class constant [SALARY_CAP], the gross salary stays
    within it, whatever [salary_cap] the projector was built with. *)
Lemma run_projection_gross_capped (self : SalaryInvestmentProjector)
    (start_gross : Q) (years : Z) (smi ihp er od : Q) (results : list Res.t) :
  start_gross <= SALARY_CAP ->
  run_projection self start_gross years smi ihp er od = Py.Ok results ->
  Forall (fun r => (Res.gross_yearly r <= 5000000)%Z) results.
Proof. apply projection_loop_gross_capped. Qed.

(** ** The claims *)

(** C1 at a failing input: a projector built with [salary_cap=1000000] and run
    from a gross salary of 1000000 for two years reports 1050000 in year 2,
    above the configured cap: the yearly hike is clamped at the class
    constant [SALARY_CAP], not at [self.salary_cap]. *)
Theorem configured_salary_cap_exceeded :
  let self := SalaryInvestmentProjector_init None None (Some 1000000) None in
  exists r1 r2,
    run_projection self 1000000 2 0 0 0 0 = Py.Ok [r1; r2] /\
    Res.gross_yearly r1 = 1000000%Z /\
    Res.gross_yearly r2 = 1050000%Z /\
    ~ inject_Z (Res.gross_yearly r2) <= salary_cap self.
Proof.
  intros self.
  let v := eval vm_compute in (run_projection self 1000000 2 0 0 0 0) in
  match v with
  | Py.Ok [?r1; ?r2] =>
      exists r1, r2;
      assert (Hrun : run_projection self 1000000 2 0 0 0 0 = v)
        by (vm_compute; reflexivity)
  end.
  split; [exact Hrun|]. split; [reflexivity|]. split; [reflexivity|].
  apply Qlt_not_le. reflexivity.
Qed.

(** The starting salary itself is reported as it is given, above any cap. *)
Example start_gross_not_clamped :
  exists r,
    run_projection default_projector 6000000 1 0 0 0 0 = Py.Ok [r] /\
    Res.gross_yearly r = 6000000%Z.
Proof. vm_compute. eexists. split; reflexivity. Qed.

(** C2: with standard deduction 50000, the seven default brackets and cess
    rate 0.04, a gross income of 1000000 has a taxable base of 950000, a
    bracket tax of 35000 and a total tax of exactly 36400; on binary64 floats
    the result is the double 36400 as well. *)
Theorem compute_tax_default_scenario :
  let tc := TaxCalculator_init None None None in
  tc = mkTaxCalculator
         [ (Finite 400000, 0.00); (Finite 400000, 0.05);
           (Finite 400000, 0.10); (Finite 400000, 0.15);
           (Finite 400000, 0.20); (Finite 400000, 0.25);
           (Infinity, 0.30) ]
         0.04 50000 /\
  Py.max 0 (1000000 - std_deduction tc) == 950000 /\
  slab_loop (slabs tc) 950000 0 == 35000 /\
  compute_tax tc 1000000 == 36400 /\
  Binary64.compute_tax 1000000 = 36400%float.
Proof.
  intros tc. split; [reflexivity|]. split; [reflexivity|].
  split; [reflexivity|]. split; [reflexivity|].
  vm_compute. reflexivity.
Qed.

(** C3: the single-year scenario on the default projector yields exactly one
    record, with 240000 invested, a portfolio value of 268800, a running
    invested total of 240000 and a return of 12.00 percent; on binary64
    floats the unrounded totals are these same whole numbers. *)
Theorem single_year_scenario :
  (exists r,
     run_projection default_projector 1200000 1 20000 10 12 0 = Py.Ok [r] /\
     Res.year r = 1%Z /\
     Res.total_invest_yearly r = 240000%Z /\
     Res.cumulative_return r = 268800%Z /\
     Res.running_invest_total r = 240000%Z /\
     Res.return_percentage r == 12.00) /\
  Binary64.project_year_totals 20000 0 0 12
  = (240000, 240000, 268800, 12)%float.
Proof.
  split.
  - vm_compute. eexists. split; [reflexivity|]. repeat split.
  - vm_compute. reflexivity.
Qed.

(** *** The step on doubles *)

Section DoubleStep.

Local Open Scope float_scope.

Lemma f64_div_12 (a : float) : F64.div a 12 = F64.Ok (a / 12).
Proof. reflexivity. Qed.

Lemma f64_div_100 (a : float) : F64.div a 100 = F64.Ok (a / 100).
Proof. reflexivity. Qed.

(** A double that compares above zero is not a zero. *)
Lemma f64_pos_nonzero (b : float) : (0 <? b) = true -> (b =? 0) = false.
Proof.
  rewrite FloatAxioms.ltb_spec, FloatAxioms.eqb_spec.
  change (FloatOps.Prim2SF 0) with (SpecFloat.S754_zero false).
  destruct (FloatOps.Prim2SF b) as [s | s | | s m e];
    try destruct s;
    cbv [SpecFloat.SFltb SpecFloat.SFeqb SpecFloat.SFleb SpecFloat.SFcompare];
    intros H; congruence.
Qed.

(** A double at or below zero does not compare above zero. *)
Lemma f64_nonpos_not_pos (b : float) : (b <=? 0) = true -> (0 <? b) = false.
Proof.
  rewrite FloatAxioms.ltb_spec, FloatAxioms.leb_spec.
  change (FloatOps.Prim2SF 0) with (SpecFloat.S754_zero false).
  destruct (FloatOps.Prim2SF b) as [s | s | | s m e];
    try destruct s;
    cbv [SpecFloat.SFltb SpecFloat.SFeqb SpecFloat.SFleb SpecFloat.SFcompare];
    intros H; congruence.
Qed.

(** The guarded quotient [(a / b * 100) if b > 0 else 0] never raises. *)
Lemma f64_guarded_percentage (a b : float) :
  (if 0 <? b
   then F64.bind (F64.div a b) (fun q => F64.Ok (q * 100))
   else F64.Ok 0)
  = F64.Ok (if 0 <? b then a / b * 100 else 0).
Proof.
  destruct (0 <? b) eqn:E; [|reflexivity].
  unfold F64.div. rewrite (f64_pos_nonzero b E). reflexivity.
Qed.

(** [project_year] on doubles: the locals are computed without raising, and
    the dictionary is built from them by the roundings, in key order. *)
Lemma f64_project_year_eq (self : F64.SalaryInvestmentProjector)
    (g m od rit cr er : float) :
  F64.project_year self g m od rit cr er
  = F64.bind (F64.round g) (fun r_gross_yearly =>
    F64.bind (F64.round (F64.gross_monthly g)) (fun r_gross_monthly =>
    F64.bind (F64.round (F64.tax_yearly self g)) (fun r_tax_yearly =>
    F64.bind (F64.round (F64.tax_monthly self g)) (fun r_tax_monthly =>
    F64.bind (F64.round (F64.net_salary_yearly self g))
      (fun r_net_salary_yearly =>
    F64.bind (F64.round (F64.net_monthly self g)) (fun r_net_monthly =>
    F64.bind (F64.round (F64.common_ded_month g)) (fun r_common_ded_month =>
    F64.bind (F64.round od) (fun r_other_deductions =>
    F64.bind (F64.round (F64.total_invest_yearly self m))
      (fun r_total_invest_yearly =>
    F64.bind (F64.round (F64.monthly_investment_capped self m))
      (fun r_monthly_investment =>
    F64.bind (F64.round (F64.salary_left_month self g m od))
      (fun r_salary_left_month =>
    F64.bind (F64.round (F64.next_running_invest_total self m rit))
      (fun r_running_invest_total =>
    F64.bind (F64.round (F64.next_cumulative_return self m cr er))
      (fun r_cumulative_return =>
    F64.Ok
      ({| F64.Res.year := 0;
          F64.Res.gross_yearly := r_gross_yearly;
          F64.Res.gross_monthly := r_gross_monthly;
          F64.Res.tax_yearly := r_tax_yearly;
          F64.Res.tax_monthly := r_tax_monthly;
          F64.Res.net_salary_yearly := r_net_salary_yearly;
          F64.Res.net_monthly := r_net_monthly;
          F64.Res.common_ded_month := r_common_ded_month;
          F64.Res.other_deductions := r_other_deductions;
          F64.Res.total_invest_yearly := r_total_invest_yearly;
          F64.Res.monthly_investment := r_monthly_investment;
          F64.Res.salary_left_month := r_salary_left_month;
          F64.Res.invest_percentage :=
            F64.round2 (F64.invest_percentage self g m);
          F64.Res.remarks :=
            if 40 <? F64.invest_percentage self g m
            then "High"%string else "Good"%string;
          F64.Res.running_invest_total := r_running_invest_total;
          F64.Res.cumulative_return := r_cumulative_return;
          F64.Res.return_percentage :=
            F64.round2 (F64.return_percentage self m rit cr er) |},
       F64.next_running_invest_total self m rit,
       F64.next_cumulative_return self m cr er)))))))))))))).
Proof.
  unfold F64.project_year. cbv zeta.
  rewrite !f64_div_12. cbn [F64.bind].
  rewrite f64_guarded_percentage. cbn [F64.bind].
  rewrite f64_div_100. cbn [F64.bind].
  rewrite f64_guarded_percentage. cbn [F64.bind].
  reflexivity.
Qed.

(** What a successful [round(x)] returns. *)
Lemma f64_round_ok (x : float) (z : Z) :
  F64.round x = F64.Ok z -> F64.rounds_to_unit x z.
Proof.
  unfold F64.round, F64.rounds_to_unit.
  destruct (F64.value x) as [q|]; [|discriminate].
  intros [= <-]. exists q. split; [reflexivity|].
  split; [reflexivity | apply round_nearest].
Qed.

(** [round(x)] raises no [ZeroDivisionError]. *)
Lemma f64_round_no_zero_division (x : float) :
  F64.round x <> F64.Raise F64.ZeroDivisionError.
Proof.
  unfold F64.round. destruct (F64.value x); [discriminate|].
  destruct (PrimFloat.is_nan x); discriminate.
Qed.

End DoubleStep.

(** Splits a successful chain of roundings into its steps. *)
Ltac f64_bind_inv H :=
  repeat match type of H with
  | F64.bind (F64.round ?x) _ = F64.Ok _ =>
      let z := fresh "z" in
      let E := fresh "E" in
      destruct (F64.round x) as [z|] eqn:E;
      [apply f64_round_ok in E; cbn [F64.bind] in H
      | discriminate H]
  end.

Section DoubleRecords.

#[local] Set Warnings "-inexact-float".
Local Open Scope float_scope.



(** Rounded totals are not fed back: with 0.04 invested per month the records
    report 0 and then 1, the roundings of the doubles next to 0.48 and
    0.96. *)
Example running_total_not_rounded_between_years :
  exists results,
    F64.run_projection F64.default_projector 1200000 2 0.04 0 12 0
      = F64.Ok results /\
    map F64.Res.running_invest_total results = [0; 1]%Z.
Proof. vm_compute. eexists. split; reflexivity. Qed.

End DoubleRecords.

(** C5: with non-negative bracket rates and a non-negative cess rate the tax
    is monotone in the gross income. *)
Theorem compute_tax_monotone (tc : TaxCalculator) (gross1 gross2 : Q) :
  nonneg_rates (slabs tc) -> 0 <= cess_rate tc -> gross1 < gross2 ->
  compute_tax tc gross1 <= compute_tax tc gross2.
Proof.
  intros Hr Hc Hg. unfold compute_tax.
  set (t1 := Py.max 0 (gross1 - std_deduction tc)).
  set (t2 := Py.max 0 (gross2 - std_deduction tc)).
  assert (Ht : t1 <= t2) by (unfold t1, t2, Py.max; split_cmp; lra).
  pose proof (slab_loop_ge _ Hr t1 0) as H1.
  pose proof (slab_loop_ge _ Hr t2 0) as H2.
  pose proof (slab_loop_mono _ Hr t1 t2 0 0 Ht (Qle_refl 0)) as H12.
  destruct (Py.leb t1 0) eqn:E1, (Py.leb t2 0) eqn:E2; split_cmp;
    try lra; nra.
Qed.

Lemma compute_tax_monotone_witness :
  let tc := TaxCalculator_init None None None in
  nonneg_rates (slabs tc) /\ 0 <= cess_rate tc /\ 500000 < 1000000 /\
  compute_tax tc 500000 <= compute_tax tc 1000000.
Proof.
  assert (Hr : nonneg_rates (slabs (TaxCalculator_init None None None)))
    by (repeat constructor; simpl; lra).
  assert (Hc : 0 <= cess_rate (TaxCalculator_init None None None))
    by (simpl; unfold CESS_RATE; lra).
  assert (Hg : 500000 < 1000000) by lra.
  split; [exact Hr | split; [exact Hc | split; [exact Hg |]]].
  exact (compute_tax_monotone _ 500000 1000000 Hr Hc Hg).
Defined.

(** C6 fails when the yearly investment hike is below -100 percent: the
    monthly investment turns negative and the running total falls. *)
Lemma running_total_counterexample :
  exists results,
    run_projection default_projector 1000000 2 1000 (-200) 12 0
      = Py.Ok results /\
    map Res.running_invest_total results = [12000; 0]%Z /\
    ~ running_total_nondecreasing results.
Proof.
  vm_compute. eexists. split; [reflexivity|]. split; [reflexivity|].
  intros H. specialize (H O _ _ eq_refl eq_refl). now apply H.
Qed.

(** The same happens from a negative starting investment and under a
    negative configured cap. *)
Example running_total_falls_negative_start :
  exists results,
    run_projection default_projector 1000000 2 (-1000) 0 12 0
      = Py.Ok results /\
    map Res.running_invest_total results = [-12000; -24000]%Z.
Proof. vm_compute. eexists. split; reflexivity. Qed.

Example running_total_falls_negative_cap :
  exists results,
    run_projection (SalaryInvestmentProjector_init None None None (Some (-1)))
                   1000000 2 1000 0 12 0 = Py.Ok results /\
    map Res.running_invest_total results = [-12; -24]%Z.
Proof. vm_compute. eexists. split; reflexivity. Qed.

(** C6, amended: when the starting monthly investment and the configured
    monthly cap are non-negative and the yearly investment hike is at least
    -100 percent, consecutive records report non-decreasing running totals. *)
Theorem running_total_monotone (self : SalaryInvestmentProjector)
    (start_gross : Q) (years : Z) (smi ihp er od : Q) (results : list Res.t) :
  0 <= smi -> 0 <= invest_monthly_cap self -> -100 <= ihp ->
  run_projection self start_gross years smi ihp er od = Py.Ok results ->
  running_total_nondecreasing results.
Proof.
  intros Hm Hcap Hhike Hrun i a b Ha Hb.
  pose proof (projection_loop_running_sorted self ihp er od Hcap Hhike
                _ _ _ _ _ _ _ Hm Hrun) as Hs.
  apply Sorted_inv in Hs as [Hs _].
  apply (Sorted_consecutive Z.le _ Hs i).
  - rewrite nth_error_map, Ha. reflexivity.
  - rewrite nth_error_map, Hb. reflexivity.
Qed.

Lemma running_total_monotone_witness :
  exists results a b,
    run_projection default_projector 1200000 3 20000 10 12 0
      = Py.Ok results /\
    nth_error results 0 = Some a /\ nth_error results 1 = Some b /\
    Res.running_invest_total a = 240000%Z /\
    Res.running_invest_total b = 504000%Z /\
    (Res.running_invest_total a <= Res.running_invest_total b)%Z.
Proof.
  assert (H0 : 0 <= 20000) by lra.
  assert (H1 : 0 <= invest_monthly_cap default_projector)
    by (simpl; unfold INVEST_MONTHLY_CAP; lra).
  assert (H2 : -100 <= 10) by lra.
  let v := eval vm_compute in
             (run_projection default_projector 1200000 3 20000 10 12 0) in
  match v with
  | Py.Ok ?l =>
      assert (Hrun : run_projection default_projector 1200000 3 20000 10 12 0
                     = Py.Ok l) by (vm_compute; reflexivity);
      exists l
  end.
  do 2 eexists.
  split; [exact Hrun|]. split; [reflexivity|]. split; [reflexivity|].
  split; [reflexivity|]. split; [reflexivity|].
  exact (running_total_monotone default_projector 1200000 3 20000 10 12 0
           _ H0 H1 H2 Hrun O _ _ eq_refl eq_refl).
Defined.

(** C7 fails on a table with an empty bracket: the loop stops at the first
    bracket whose [take] is not positive, so the brackets after a zero-width
    one are never applied. *)
Lemma finite_table_claim_counterexample :
  let tc := mkTaxCalculator [(Finite 0, 0.10); (Finite 100, 0.20)] 0 0 in
  compute_tax tc 200 == 0 /\
  full_table_tax [(0, 0.10); (100, 0.20)] * (1 + cess_rate tc) == 20 /\
  ~ finite_table_claim tc 200.
Proof.
  intros tc. split; [reflexivity | split; [reflexivity |]].
  intros H.
  assert (Hw : total_width [(0, 0.10); (100, 0.20)] < taxable_base tc 200)
    by reflexivity.
  pose proof (H _ eq_refl Hw) as C.
  vm_compute in C. discriminate C.
Qed.

(** C7, amended: for a finite table whose widths are all strictly positive and
    sum to [W], an income whose taxable base exceeds [W] is taxed on the first
    [W] only: the result is the bracket tax of the whole table scaled by
    [1 + cess_rate]; the excess adds nothing and no error is raised. *)
Theorem finite_table_under_taxes (tc : TaxCalculator) (gross : Q)
    (fs : list (Q * Q)) :
  finite_slabs (slabs tc) = Some fs -> positive_widths fs ->
  total_width fs < taxable_base tc gross ->
  compute_tax tc gross == full_table_tax fs * (1 + cess_rate tc).
Proof.
  unfold taxable_base. intros Hfs Hpos Hw.
  assert (0 <= total_width fs).
  { clear - Hpos. induction Hpos; simpl; [lra|].
    change (fold_right (fun s acc => fst s + acc) 0 l) with (total_width l).
    lra. }
  unfold compute_tax. split_cmp; [lra|].
  rewrite (slab_loop_exhausts _ fs Hfs Hpos); [ring | lra].
Qed.

Lemma finite_table_under_taxes_witness :
  let tc := mkTaxCalculator [(Finite 100, 0.10); (Finite 100, 0.20)] 0.04 50 in
  let fs := [(100, 0.10); (100, 0.20)] in
  finite_slabs (slabs tc) = Some fs /\ positive_widths fs /\
  total_width fs < taxable_base tc 1000 /\
  compute_tax tc 1000 == full_table_tax fs * (1 + cess_rate tc).
Proof.
  intros tc fs.
  assert (Hfs : finite_slabs (slabs tc) = Some fs) by reflexivity.
  assert (Hpos : positive_widths fs) by (repeat constructor).
  assert (Hw : total_width fs < taxable_base tc 1000) by reflexivity.
  split; [exact Hfs | split; [exact Hpos | split; [exact Hw |]]].
  exact (finite_table_under_taxes tc 1000 fs Hfs Hpos Hw).
Defined.

(** C8: a zero or negative number of years gives the empty list, without
    raising and without any record. *)
Theorem run_projection_no_years (self : SalaryInvestmentProjector)
    (start_gross : Q) (years : Z) (smi ihp er od : Q) :
  (years <= 0)%Z ->
  run_projection self start_gross years smi ihp er od = Py.Ok [].
Proof.
  intros H. unfold run_projection.
  replace (Z.to_nat years) with O by lia. reflexivity.
Qed.

Lemma run_projection_no_years_witness :
  (-3 <= 0)%Z /\
  run_projection default_projector 1200000 (-3) 20000 10 12 0 = Py.Ok [].
Proof.
  split; [lia|].
  apply (run_projection_no_years default_projector 1200000 (-3)). lia.
Defined.

Section DoubleGuards.

Local Open Scope float_scope.

(** C9: on doubles, in every step that returns, the record's investment
    percentage is the capped monthly investment divided by the net monthly
    salary, times 100 (rounded to two decimals for the record), when the
    net monthly salary is above zero, and 0 when it is at or below zero; its
    return percentage is likewise the gain on the running invested total
    the step returns, and 0 when that total is at or below zero.  The step
    raises no [ZeroDivisionError], whatever its input. *)
Theorem division_guards (self : F64.SalaryInvestmentProjector)
    (g m od rit cr er : float) :
  let capped := F64.min m (F64.invest_monthly_cap self) in
  let net := (g - F64.compute_tax (F64.tax_calc self) g) / 12 in
  F64.project_year self g m od rit cr er
  <> F64.Raise F64.ZeroDivisionError /\
  forall res invested value,
    F64.project_year self g m od rit cr er = F64.Ok (res, invested, value) ->
    ((0 <? net) = true ->
     F64.Res.invest_percentage res = F64.round2 (capped / net * 100)) /\
    ((net <=? 0) = true -> F64.Res.invest_percentage res = 0) /\
    ((0 <? invested) = true ->
     F64.Res.return_percentage res
     = F64.round2 ((value - invested) / invested * 100)) /\
    ((invested <=? 0) = true -> F64.Res.return_percentage res = 0).
Proof.
  intros capped net. split.
  - rewrite f64_project_year_eq.
    repeat match goal with
    | |- F64.bind (F64.round ?x) _ <> _ =>
        let E := fresh "E" in
        destruct (F64.round x) as [?|[]] eqn:E; cbn [F64.bind];
        try discriminate;
        try (exfalso; exact (f64_round_no_zero_division x E))
    end.
  - intros res invested value H. rewrite f64_project_year_eq in H.
    f64_bind_inv H. injection H as <- <- <-.
    cbn [F64.Res.invest_percentage F64.Res.return_percentage].
    unfold F64.invest_percentage, F64.return_percentage.
    change (F64.net_monthly self g) with net.
    change (F64.monthly_investment_capped self m) with capped.
    repeat split; intros H.
    + now rewrite H.
    + now rewrite (f64_nonpos_not_pos _ H).
    + now rewrite H.
    + now rewrite (f64_nonpos_not_pos _ H).
Qed.

Lemma division_guards_witness :
  exists res invested value,
    F64.project_year F64.default_projector 1200000 20000 0 0 0 12
      = F64.Ok (res, invested, value) /\
    F64.Res.invest_percentage res = 21 /\
    F64.Res.invest_percentage res
    = F64.round2
        (F64.min 20000 100000
         / ((1200000 - F64.compute_tax (F64.tax_calc F64.default_projector)
                         1200000) / 12) * 100) /\
    F64.Res.return_percentage res = 12 /\
    F64.Res.return_percentage res
    = F64.round2 ((value - invested) / invested * 100).
Proof.
  destruct (division_guards F64.default_projector 1200000 20000 0 0 0 12)
    as (_ & Hrec).
  let v := eval vm_compute in
             (F64.project_year F64.default_projector 1200000 20000 0 0 0 12) in
  match v with
  | F64.Ok (?r, ?i, ?c) =>
      assert (Hrun : F64.project_year F64.default_projector 1200000 20000
                       0 0 0 12 = F64.Ok (r, i, c))
        by (vm_compute; reflexivity);
      exists r, i, c;
      destruct (Hrec _ _ _ Hrun) as (Hip & _ & Hrp & _)
  end.
  split; [exact Hrun | split; [reflexivity | split]].
  - apply Hip. vm_compute. reflexivity.
  - split; [reflexivity | apply Hrp; vm_compute; reflexivity].
Defined.

End DoubleGuards.

(** C10: a gross income at or below the standard deduction, negative incomes
    included, has its taxable base clamped to zero and owes no tax. *)
Theorem compute_tax_zero_below_deduction (tc : TaxCalculator) (gross : Q) :
  gross <= std_deduction tc ->
  taxable_base tc gross == 0 /\ compute_tax tc gross == 0.
Proof.
  intros H. unfold compute_tax, taxable_base, Py.max.
  split; split_cmp; lra.
Qed.

Lemma compute_tax_zero_below_deduction_witness :
  let tc := TaxCalculator_init None None None in
  -20000 <= std_deduction tc /\
  taxable_base tc (-20000) == 0 /\ compute_tax tc (-20000) == 0.
Proof.
  intros tc.
  assert (H : -20000 <= std_deduction tc) by (simpl; unfold STD_DEDUCTION; lra).
  split; [exact H|].
  exact (compute_tax_zero_below_deduction tc (-20000) H).
Defined.

(** ** Further properties of [compute_tax] *)

Lemma min_comp (a a' b b' : Q) :
  a == a' -> b == b' -> Py.min a b == Py.min a' b'.
Proof. intros Ha Hb. unfold Py.min. split_cmp; lra. Qed.

Lemma min_amount_comp (r r' : Q) (a : amount) :
  r == r' -> min_amount r a == min_amount r' a.
Proof.
  intros H. destruct a; simpl; [apply min_comp; [assumption | reflexivity]|].
  assumption.
Qed.

(** The slab loop respects equality of rationals. *)
Lemma slab_loop_comp (sl : list (amount * Q)) :
  forall r r' t t', r == r' -> t == t' ->
    slab_loop sl r t == slab_loop sl r' t'.
Proof.
  induction sl as [| [a rate] rest IH]; intros r r' t t' Hr Ht; simpl;
    [assumption|].
  pose proof (min_amount_comp r r' a Hr) as Hm.
  destruct (Py.leb (min_amount r a) 0) eqn:E1,
           (Py.leb (min_amount r' a) 0) eqn:E2; split_cmp; try lra.
  apply IH; [lra|]. rewrite Hm, Ht. reflexivity.
Qed.

Lemma min_amount_le (r : Q) (a : amount) : min_amount r a <= r.
Proof. destruct a; simpl; [apply min_le_l | lra]. Qed.

(** Once nothing remains, the loop stops at the next bracket. *)
Lemma slab_loop_done (sl : list (amount * Q)) (remaining tax : Q) :
  remaining <= 0 -> slab_loop sl remaining tax = tax.
Proof.
  intros H. destruct sl as [| [a rate] rest]; simpl; [reflexivity|].
  pose proof (min_amount_le remaining a).
  split_cmp; [reflexivity | lra].
Qed.

Lemma total_width_nonneg (fs : list (Q * Q)) :
  positive_widths fs -> 0 <= total_width fs.
Proof.
  induction 1 as [| s l Hs _ IH]; simpl; [lra|].
  change (fold_right (fun s acc => fst s + acc) 0 l) with (total_width l).
  lra.
Qed.

Lemma total_width_zero (fs : list (Q * Q)) :
  positive_widths fs -> total_width fs <= 0 -> fs = [].
Proof.
  intros Hpos H. destruct Hpos as [| s l Hs Hl]; [reflexivity|].
  pose proof (total_width_nonneg l Hl). simpl in H.
  change (fold_right (fun s acc => fst s + acc) 0 l) with (total_width l) in H.
  lra.
Qed.

(** A prefix of positive finite brackets is consumed in full by any amount
    that covers it; the loop goes on with the rest of the table. *)
Lemma slab_loop_prefix (pre rest : list (amount * Q)) :
  forall fs, finite_slabs pre = Some fs -> positive_widths fs ->
  forall remaining tax, total_width fs <= remaining ->
    slab_loop (pre ++ rest) remaining tax
    == slab_loop rest (remaining - total_width fs) (tax + full_table_tax fs).
Proof.
  induction pre as [| [[w|] rate] pre IH]; intros fs Hfs Hpos remaining tax Hrem;
    simpl in Hfs; try discriminate.
  - injection Hfs as <-. simpl. apply slab_loop_comp; simpl; lra.
  - destruct (finite_slabs pre) as [fs'|]; [|discriminate].
    injection Hfs as <-. inversion Hpos as [| s l Hw Hpos']; subst.
    pose proof (total_width_nonneg fs' Hpos') as Hnn.
    simpl in Hw, Hrem |- *.
    change (fold_right (fun s acc => fst s + acc) 0 fs')
      with (total_width fs') in *.
    change (fold_right (fun s acc => fst s * snd s + acc) 0 fs')
      with (full_table_tax fs').
    unfold Py.min. split_cmp; try lra.
    + rewrite (IH fs' eq_refl Hpos'); [|lra].
      apply slab_loop_comp; lra.
    + rewrite (IH fs' eq_refl Hpos'); [|lra].
      assert (remaining == w) by lra.
      apply slab_loop_comp; [lra | nra].
Qed.

(** X1: the progressive formula.  When the table starts with positive finite
    brackets of total width [W] that the taxable base [b] covers, and the
    rest [b - W] fits in the next bracket, the tax is the full tax of the
    covered brackets plus [b - W] at the next rate, scaled by
    [1 + cess_rate]. *)
Theorem compute_tax_progressive (tc : TaxCalculator) (gross : Q)
    (pre rest : list (amount * Q)) (fs : list (Q * Q)) (a : amount)
    (rate : Q) :
  slabs tc = pre ++ (a, rate) :: rest ->
  finite_slabs pre = Some fs -> positive_widths fs ->
  total_width fs <= taxable_base tc gross ->
  within (taxable_base tc gross - total_width fs) a ->
  compute_tax tc gross
  == (full_table_tax fs + (taxable_base tc gross - total_width fs) * rate)
     * (1 + cess_rate tc).
Proof.
  intros Hsl Hfs Hpos Hcov Hfit. unfold compute_tax.
  change (Py.max 0 (gross - std_deduction tc)) with (taxable_base tc gross).
  set (b := taxable_base tc gross) in *. clearbody b.
  pose proof (total_width_nonneg fs Hpos) as Hnn.
  destruct (Py.leb b 0) eqn:Eb; split_cmp.
  - assert (fs = []) by (apply total_width_zero; [assumption | lra]).
    subst fs. simpl in *. setoid_replace b with 0 using relation Qeq by lra. ring.
  - rewrite Hsl, (slab_loop_prefix pre _ fs Hfs Hpos b 0 Hcov).
    set (d := b - total_width fs) in *.
    assert (Hd : 0 <= d) by (unfold d; lra). clearbody d. simpl.
    assert (Htake : min_amount d a = d).
    { destruct a as [w|]; simpl in *; [|reflexivity].
      unfold Py.min. split_cmp; [lra | reflexivity]. }
    rewrite Htake. destruct (Py.leb d 0) eqn:Ed; split_cmp.
    + setoid_replace d with 0 using relation Qeq by lra. ring.
    + rewrite slab_loop_done by lra. ring.
Qed.

Lemma compute_tax_progressive_witness :
  let tc := TaxCalculator_init None None None in
  let pre := [ (Finite 400000, 0.00); (Finite 400000, 0.05);
               (Finite 400000, 0.10); (Finite 400000, 0.15);
               (Finite 400000, 0.20); (Finite 400000, 0.25) ] in
  let fs := [ (400000, 0.00); (400000, 0.05); (400000, 0.10);
              (400000, 0.15); (400000, 0.20); (400000, 0.25) ] in
  slabs tc = pre ++ (Infinity, 0.30) :: [] /\
  finite_slabs pre = Some fs /\ positive_widths fs /\
  total_width fs <= taxable_base tc 3000000 /\
  within (taxable_base tc 3000000 - total_width fs) Infinity /\
  compute_tax tc 3000000
  == (full_table_tax fs + (taxable_base tc 3000000 - total_width fs) * 0.30)
     * (1 + cess_rate tc).
Proof.
  intros tc pre fs.
  assert (Hsl : slabs tc = pre ++ (Infinity, 0.30) :: []) by reflexivity.
  assert (Hfs : finite_slabs pre = Some fs) by reflexivity.
  assert (Hpos : positive_widths fs) by (repeat constructor).
  assert (Hcov : total_width fs <= taxable_base tc 3000000)
    by (apply Qlt_le_weak; reflexivity).
  assert (Hfit : within (taxable_base tc 3000000 - total_width fs) Infinity)
    by exact I.
  split; [exact Hsl | split; [exact Hfs | split; [exact Hpos |]]].
  split; [exact Hcov | split; [exact Hfit |]].
  exact (compute_tax_progressive tc 3000000 pre [] fs Infinity 0.30
           Hsl Hfs Hpos Hcov Hfit).
Defined.

(** X2: on a bracket boundary.  When the taxable base is exactly the total
    width of the first positive finite brackets, the tax is the full tax of
    these brackets scaled by [1 + cess_rate], whatever follows them. *)
Theorem compute_tax_at_boundary (tc : TaxCalculator) (gross : Q)
    (pre rest : list (amount * Q)) (fs : list (Q * Q)) :
  slabs tc = pre ++ rest ->
  finite_slabs pre = Some fs -> positive_widths fs ->
  taxable_base tc gross == total_width fs ->
  compute_tax tc gross == full_table_tax fs * (1 + cess_rate tc).
Proof.
  intros Hsl Hfs Hpos Hb. unfold compute_tax.
  change (Py.max 0 (gross - std_deduction tc)) with (taxable_base tc gross).
  set (b := taxable_base tc gross) in *. clearbody b.
  destruct (Py.leb b 0) eqn:Eb; split_cmp.
  - assert (fs = []) by (apply total_width_zero; [assumption | lra]).
    subst fs. simpl. ring.
  - rewrite Hsl, (slab_loop_prefix pre _ fs Hfs Hpos b 0) by lra.
    rewrite slab_loop_done by lra. ring.
Qed.

Lemma compute_tax_at_boundary_witness :
  let tc := TaxCalculator_init None None None in
  let pre := [(Finite 400000, 0.00); (Finite 400000, 0.05)] in
  let rest := [ (Finite 400000, 0.10); (Finite 400000, 0.15);
                (Finite 400000, 0.20); (Finite 400000, 0.25);
                (Infinity, 0.30) ] in
  let fs := [(400000, 0.00); (400000, 0.05)] in
  slabs tc = pre ++ rest /\ finite_slabs pre = Some fs /\
  positive_widths fs /\ taxable_base tc 850000 == total_width fs /\
  compute_tax tc 850000 == full_table_tax fs * (1 + cess_rate tc).
Proof.
  intros tc pre rest fs.
  assert (Hsl : slabs tc = pre ++ rest) by reflexivity.
  assert (Hfs : finite_slabs pre = Some fs) by reflexivity.
  assert (Hpos : positive_widths fs) by (repeat constructor).
  assert (Hb : taxable_base tc 850000 == total_width fs) by reflexivity.
  split; [exact Hsl | split; [exact Hfs | split; [exact Hpos |]]].
  split; [exact Hb |].
  exact (compute_tax_at_boundary tc 850000 pre rest fs Hsl Hfs Hpos Hb).
Defined.

Lemma slab_loop_dead_after_empty (l1 l2 : list (amount * Q)) (w rate : Q) :
  w <= 0 ->
  forall remaining tax,
    slab_loop (l1 ++ (Finite w, rate) :: l2) remaining tax
    = slab_loop l1 remaining tax.
Proof.
  intros Hw. induction l1 as [| [a r] l1 IH]; intros remaining tax; simpl.
  - pose proof (min_le_r remaining w). split_cmp; [reflexivity | lra].
  - destruct (Py.leb (min_amount remaining a) 0); [reflexivity | apply IH].
Qed.

Lemma slab_loop_dead_after_unbounded (l1 l2 : list (amount * Q)) (rate : Q) :
  forall remaining tax,
    slab_loop (l1 ++ (Infinity, rate) :: l2) remaining tax
    = slab_loop (l1 ++ [(Infinity, rate)]) remaining tax.
Proof.
  induction l1 as [| [a r] l1 IH]; intros remaining tax; simpl.
  - destruct (Py.leb remaining 0); [reflexivity|].
    apply slab_loop_done. lra.
  - destruct (Py.leb (min_amount remaining a) 0); [reflexivity | apply IH].
Qed.

(** X3: a bracket of zero or negative width ends the table.  The brackets
    from the first such bracket on are never applied: the tax is the one of
    the table cut before it. *)
Theorem compute_tax_stops_at_empty_bracket (l1 l2 : list (amount * Q))
    (w rate cess std gross : Q) :
  w <= 0 ->
  compute_tax (mkTaxCalculator (l1 ++ (Finite w, rate) :: l2) cess std) gross
  = compute_tax (mkTaxCalculator l1 cess std) gross.
Proof.
  intros Hw. unfold compute_tax. simpl.
  rewrite (slab_loop_dead_after_empty l1 l2 w rate Hw). reflexivity.
Qed.

Lemma compute_tax_stops_at_empty_bracket_witness :
  (0 <= 0) /\
  compute_tax (mkTaxCalculator
                 ([(Finite 100, 0.10)] ++ (Finite 0, 0.20)
                  :: [(Infinity, 0.30)]) 0.04 50) 1000
  = compute_tax (mkTaxCalculator [(Finite 100, 0.10)] 0.04 50) 1000.
Proof.
  assert (H : 0 <= 0) by lra.
  split; [exact H|].
  exact (compute_tax_stops_at_empty_bracket [(Finite 100, 0.10)]
           [(Infinity, 0.30)] 0 0.20 0.04 50 1000 H).
Defined.

(** X4: an unbounded bracket ends the table.  Brackets listed after a
    [float("inf")] bracket are never applied. *)
Theorem compute_tax_stops_after_unbounded (l1 l2 : list (amount * Q))
    (rate cess std gross : Q) :
  compute_tax (mkTaxCalculator (l1 ++ (Infinity, rate) :: l2) cess std) gross
  = compute_tax (mkTaxCalculator (l1 ++ [(Infinity, rate)]) cess std) gross.
Proof.
  unfold compute_tax. simpl.
  rewrite (slab_loop_dead_after_unbounded l1 l2 rate). reflexivity.
Qed.

Lemma rates_within_nonneg (R : Q) (sl : list (amount * Q)) :
  rates_within R sl -> nonneg_rates sl.
Proof.
  unfold rates_within, nonneg_rates. apply Forall_impl. intros s H. lra.
Qed.

(** The slab loop adds at most the top rate on what remains. *)
Lemma slab_loop_upper (R : Q) (sl : list (amount * Q)) :
  rates_within R sl -> 0 <= R ->
  forall remaining tax, 0 <= remaining ->
    slab_loop sl remaining tax <= tax + R * remaining.
Proof.
  intros Hr HR. induction Hr as [| [a rate] rest Hrate _ IH];
    intros remaining tax Hrem; simpl.
  - nra.
  - simpl in Hrate. pose proof (min_amount_le remaining a) as Hle.
    split_cmp; [nra|].
    eapply Qle_trans; [apply IH; lra|]. nra.
Qed.

(** Between two states of the slab loop the tax grows at most at the top
    rate. *)
Lemma slab_loop_lipschitz (R : Q) (sl : list (amount * Q)) :
  rates_within R sl -> 0 <= R ->
  forall r1 r2 t1 t2, r1 <= r2 ->
    slab_loop sl r2 t2 - slab_loop sl r1 t1 <= (t2 - t1) + R * (r2 - r1).
Proof.
  intros Hr HR. induction Hr as [| [a rate] rest Hrate Hrest IH];
    intros r1 r2 t1 t2 Hrem; simpl.
  - nra.
  - simpl in Hrate.
    pose proof (min_amount_mono _ _ a Hrem) as Htake.
    pose proof (rest_mono _ _ a Hrem) as Hleft.
    pose proof (min_amount_le r2 a) as Hle2.
    destruct (Py.leb (min_amount r1 a) 0) eqn:E1,
             (Py.leb (min_amount r2 a) 0) eqn:E2; split_cmp.
    + nra.
    + assert (Hr1 : r1 <= 0).
      { destruct a as [w|]; simpl in *; [|lra].
        unfold Py.min in *.
        destruct (Py.ltb w r1) eqn:F1, (Py.ltb w r2) eqn:F2; split_cmp; lra. }
      pose proof (slab_loop_upper R rest Hrest HR
                    (r2 - min_amount r2 a) (t2 + min_amount r2 a * rate)).
      nra.
    + lra.
    + specialize (IH (r1 - min_amount r1 a) (r2 - min_amount r2 a)
                     (t1 + min_amount r1 a * rate)
                     (t2 + min_amount r2 a * rate) Hleft).
      nra.
Qed.

(** X5: with non-negative rates and cess the tax is never negative. *)
Theorem compute_tax_nonneg (tc : TaxCalculator) (gross : Q) :
  nonneg_rates (slabs tc) -> 0 <= cess_rate tc -> 0 <= compute_tax tc gross.
Proof.
  intros Hr Hc. unfold compute_tax.
  pose proof (slab_loop_ge _ Hr (Py.max 0 (gross - std_deduction tc)) 0).
  split_cmp; [lra | nra].
Qed.

Lemma compute_tax_nonneg_witness :
  let tc := TaxCalculator_init None None None in
  nonneg_rates (slabs tc) /\ 0 <= cess_rate tc /\
  0 <= compute_tax tc 1000000.
Proof.
  intros tc.
  assert (Hr : nonneg_rates (slabs tc)) by (repeat constructor; simpl; lra).
  assert (Hc : 0 <= cess_rate tc) by (simpl; unfold CESS_RATE; lra).
  split; [exact Hr | split; [exact Hc |]].
  exact (compute_tax_nonneg tc 1000000 Hr Hc).
Defined.

(** Extra income raises the tax at most at the top rate with cess. *)
Lemma compute_tax_lipschitz (tc : TaxCalculator) (R gross1 gross2 : Q) :
  rates_within R (slabs tc) -> 0 <= R -> 0 <= cess_rate tc ->
  gross1 <= gross2 ->
  compute_tax tc gross2 - compute_tax tc gross1
  <= R * (1 + cess_rate tc) * (gross2 - gross1).
Proof.
  intros Hr HR Hc Hg. unfold compute_tax.
  set (t1 := Py.max 0 (gross1 - std_deduction tc)).
  set (t2 := Py.max 0 (gross2 - std_deduction tc)).
  assert (Ht : t1 <= t2 /\ t2 - t1 <= gross2 - gross1 /\ 0 <= t1)
    by (unfold t1, t2, Py.max; split_cmp; lra).
  destruct Ht as (Ht & Hd & Hn1).
  pose proof (slab_loop_lipschitz R _ Hr HR t1 t2 0 0 Ht) as HL.
  pose proof (slab_loop_upper R _ Hr HR t2 0 ltac:(lra)) as HU.
  clearbody t1 t2.
  set (L1 := slab_loop (slabs tc) t1 0) in *.
  set (L2 := slab_loop (slabs tc) t2 0) in *. clearbody L1 L2.
  set (D := gross2 - gross1) in *.
  assert (HD : 0 <= D) by (unfold D; lra). clearbody D.
  destruct (Py.leb t1 0) eqn:E1, (Py.leb t2 0) eqn:E2; split_cmp.
  - assert (0 <= R * D) by nra.
    assert (0 <= R * D * (1 + cess_rate tc)) by nra. nra.
  - assert (L2 <= R * D) by nra.
    assert (0 <= (R * D - L2) * (1 + cess_rate tc)) by nra. nra.
  - lra.
  - assert (L2 - L1 <= R * D) by nra.
    assert (0 <= (R * D - (L2 - L1)) * (1 + cess_rate tc)) by nra. nra.
Qed.

(** X6: the marginal rate never exceeds the top rate.  When every bracket
    rate lies between 0 and [R], extra income [gross2 - gross1] raises the
    tax by at most [R * (1 + cess_rate)] times that income. *)
Theorem compute_tax_marginal_bound (tc : TaxCalculator) (R gross1 gross2 : Q) :
  rates_within R (slabs tc) -> 0 <= R -> 0 <= cess_rate tc ->
  gross1 <= gross2 ->
  compute_tax tc gross2 - compute_tax tc gross1
  <= R * (1 + cess_rate tc) * (gross2 - gross1).
Proof. exact (compute_tax_lipschitz tc R gross1 gross2). Qed.

Lemma default_rates_within :
  rates_within 0.30 (slabs (TaxCalculator_init None None None)).
Proof. repeat constructor; simpl; lra. Qed.

Lemma compute_tax_marginal_bound_witness :
  let tc := TaxCalculator_init None None None in
  rates_within 0.30 (slabs tc) /\ 0 <= 0.30 /\ 0 <= cess_rate tc /\
  1000000 <= 1200000 /\
  compute_tax tc 1200000 - compute_tax tc 1000000
  <= 0.30 * (1 + cess_rate tc) * (1200000 - 1000000).
Proof.
  intros tc.
  assert (HR : 0 <= 0.30) by lra.
  assert (Hc : 0 <= cess_rate tc) by (simpl; unfold CESS_RATE; lra).
  assert (Hg : 1000000 <= 1200000) by lra.
  split; [exact default_rates_within | split; [exact HR |]].
  split; [exact Hc | split; [exact Hg |]].
  exact (compute_tax_marginal_bound tc 0.30 1000000 1200000
           default_rates_within HR Hc Hg).
Defined.

(** The tax is at most the top rate with cess on the taxable base. *)
Lemma compute_tax_le_top_rate (tc : TaxCalculator) (R gross : Q) :
  rates_within R (slabs tc) -> 0 <= R -> 0 <= cess_rate tc ->
  compute_tax tc gross <= R * (1 + cess_rate tc) * taxable_base tc gross.
Proof.
  intros Hr HR Hc. unfold compute_tax, taxable_base.
  set (b := Py.max 0 (gross - std_deduction tc)).
  pose proof (max_0_nonneg (gross - std_deduction tc)) as Hb. fold b in Hb.
  pose proof (slab_loop_upper R _ Hr HR b 0 Hb) as HU. clearbody b.
  set (L := slab_loop (slabs tc) b 0) in *. clearbody L.
  split_cmp.
  - assert (0 <= R * b) by nra.
    assert (0 <= R * b * (1 + cess_rate tc)) by nra. nra.
  - assert (0 <= (R * b - L) * (1 + cess_rate tc)) by nra. nra.
Qed.

(** X7: the tax is at most the top rate, cess included, on the taxable
    base. *)
Theorem compute_tax_top_rate_bound (tc : TaxCalculator) (R gross : Q) :
  rates_within R (slabs tc) -> 0 <= R -> 0 <= cess_rate tc ->
  compute_tax tc gross <= R * (1 + cess_rate tc) * taxable_base tc gross.
Proof. exact (compute_tax_le_top_rate tc R gross). Qed.

Lemma compute_tax_top_rate_bound_witness :
  let tc := TaxCalculator_init None None None in
  rates_within 0.30 (slabs tc) /\ 0 <= 0.30 /\ 0 <= cess_rate tc /\
  compute_tax tc 1000000
  <= 0.30 * (1 + cess_rate tc) * taxable_base tc 1000000.
Proof.
  intros tc.
  assert (HR : 0 <= 0.30) by lra.
  assert (Hc : 0 <= cess_rate tc) by (simpl; unfold CESS_RATE; lra).
  split; [exact default_rates_within | split; [exact HR | split; [exact Hc|]]].
  exact (compute_tax_top_rate_bound tc 0.30 1000000
           default_rates_within HR Hc).
Defined.

(** The net salary is monotone when the top rate with cess is at most 1. *)
Lemma net_of_monotone (tc : TaxCalculator) (R gross1 gross2 : Q) :
  rates_within R (slabs tc) -> 0 <= R -> 0 <= cess_rate tc ->
  R * (1 + cess_rate tc) <= 1 -> gross1 <= gross2 ->
  net_of tc gross1 <= net_of tc gross2.
Proof.
  intros Hr HR Hc Htop Hg. unfold net_of.
  pose proof (compute_tax_lipschitz tc R gross1 gross2 Hr HR Hc Hg).
  nra.
Qed.

(** X8: a raise never lowers the net salary.  When the top rate with cess is
    at most 1, the net salary [gross - tax] is monotone in the gross. *)
Theorem net_salary_monotone (tc : TaxCalculator) (R gross1 gross2 : Q) :
  rates_within R (slabs tc) -> 0 <= R -> 0 <= cess_rate tc ->
  R * (1 + cess_rate tc) <= 1 -> gross1 <= gross2 ->
  net_of tc gross1 <= net_of tc gross2.
Proof. exact (net_of_monotone tc R gross1 gross2). Qed.

Lemma net_salary_monotone_witness :
  let tc := TaxCalculator_init None None None in
  rates_within 0.30 (slabs tc) /\ 0 <= 0.30 /\ 0 <= cess_rate tc /\
  0.30 * (1 + cess_rate tc) <= 1 /\ 1000000 <= 1200000 /\
  net_of tc 1000000 <= net_of tc 1200000.
Proof.
  intros tc.
  assert (HR : 0 <= 0.30) by lra.
  assert (Hc : 0 <= cess_rate tc) by (simpl; unfold CESS_RATE; lra).
  assert (Htop : 0.30 * (1 + cess_rate tc) <= 1)
    by (simpl; unfold CESS_RATE; lra).
  assert (Hg : 1000000 <= 1200000) by lra.
  split; [exact default_rates_within | split; [exact HR |]].
  split; [exact Hc | split; [exact Htop | split; [exact Hg |]]].
  exact (net_salary_monotone tc 0.30 1000000 1200000
           default_rates_within HR Hc Htop Hg).
Defined.

(** ** Further properties of [run_projection] *)

(** A property of the records that follows from an invariant of the loop
    state holds of every record of the run. *)
Lemma projection_loop_Forall (self : SalaryInvestmentProjector)
    (ihp er od : Q) (Inv : Q -> Q -> Q -> Q -> Prop) (P : Res.t -> Prop) :
  (forall r y, P r -> P (Res.set_year r y)) ->
  (forall g m rit cr, Inv g m rit cr ->
     Inv (Py.min (g * (1 + salary_hike_rate self)) SALARY_CAP)
         (Py.min (m * (1 + ihp / 100)) (invest_monthly_cap self))
         (next_running_invest_total self m rit)
         (next_cumulative_return self m cr er) /\
     forall res,
       project_year self g m od rit cr er
         = Py.Ok (res, next_running_invest_total self m rit,
                  next_cumulative_return self m cr er) ->
       P res) ->
  forall n y g m rit cr results, Inv g m rit cr ->
    projection_loop self n y ihp er od g m rit cr = Py.Ok results ->
    Forall P results.
Proof.
  intros Hyear Hstep.
  induction n as [| n IH]; intros y g m rit cr results Hinv Hrun.
  - injection Hrun as <-. constructor.
  - apply projection_loop_inv in Hrun as (res & rest & Hres & Hrest & ->).
    destruct (Hstep g m rit cr Hinv) as [Hnext HP].
    constructor.
    + apply Hyear, HP, Hres.
    + exact (IH _ _ _ _ _ _ Hnext Hrest).
Qed.

Lemma f64_projection_loop_inv (self : F64.SalaryInvestmentProjector)
    (n : nat) (y : Z) (ihp er od g m rit cr : float)
    (results : list F64.Res.t) :
  F64.projection_loop self (S n) y ihp er od g m rit cr = F64.Ok results ->
  exists res rit' cr' g' m' rest,
    F64.project_year self g m od rit cr er = F64.Ok (res, rit', cr') /\
    F64.projection_loop self n (y + 1) ihp er od g' m' rit' cr'
      = F64.Ok rest /\
    results = F64.Res.set_year res y :: rest.
Proof.
  cbn [F64.projection_loop].
  destruct (F64.project_year self g m od rit cr er) as [[[res rit'] cr'] | e];
    [|discriminate].
  cbn [F64.bind]. rewrite f64_div_100. cbn [F64.bind].
  match goal with
  | |- F64.bind (F64.projection_loop _ _ _ _ _ _ ?g' ?m' _ _) _ = _ -> _ =>
      destruct (F64.projection_loop self n (y + 1) ihp er od g' m' rit' cr')
        as [rest | e] eqn:Hrest; [|discriminate];
      cbn [F64.bind]; intros [= <-];
      exists res, rit', cr', g', m', rest
  end.
  split; [reflexivity | split; [exact Hrest | reflexivity]].
Qed.

Lemma f64_projection_loop_years (self : F64.SalaryInvestmentProjector)
    (ihp er od : float) :
  forall n y g m rit cr results,
    F64.projection_loop self n y ihp er od g m rit cr = F64.Ok results ->
    List.length results = n /\
    map F64.Res.year results = map (fun k => (y + Z.of_nat k)%Z) (seq 0 n).
Proof.
  induction n as [| n IH]; intros y g m rit cr results Hrun.
  - injection Hrun as <-. split; reflexivity.
  - apply f64_projection_loop_inv in Hrun
      as (res & rit' & cr' & g' & m' & rest & _ & Hrest & ->).
    destruct (IH _ _ _ _ _ _ Hrest) as [Hlen Hyears].
    cbn [List.length map seq F64.Res.year F64.Res.set_year].
    split; [now rewrite Hlen|].
    f_equal; [lia|].
    rewrite Hyears, <- seq_shift, map_map.
    apply map_ext. intros k. lia.
Qed.

(** X9: a run that returns, returns one record per requested year, none for
    a horizon of zero or fewer years, and numbers them 1, 2, ... in order.
    Stated on doubles, where the run can also raise from [round]. *)
Theorem run_projection_years (self : F64.SalaryInvestmentProjector)
    (start_gross : float) (years : Z) (smi ihp er od : float)
    (results : list F64.Res.t) :
  F64.run_projection self start_gross years smi ihp er od = F64.Ok results ->
  List.length results = Z.to_nat years /\
  map F64.Res.year results = map Z.of_nat (seq 1 (Z.to_nat years)).
Proof.
  unfold F64.run_projection. intros Hrun.
  destruct (f64_projection_loop_years _ _ _ _ _ _ _ _ _ _ _ Hrun)
    as [Hlen Hyears].
  split; [exact Hlen|].
  rewrite Hyears, <- seq_shift, map_map. apply map_ext. intros k. lia.
Qed.

Lemma run_projection_years_witness :
  exists results,
    F64.run_projection F64.default_projector 1200000%float 3 20000%float
      10%float 12%float 0%float = F64.Ok results /\
    List.length results = 3%nat /\
    map F64.Res.year results = [1; 2; 3]%Z.
Proof.
  let v := eval vm_compute in
             (F64.run_projection F64.default_projector 1200000%float 3
                20000%float 10%float 12%float 0%float) in
  match v with
  | F64.Ok ?l =>
      assert (Hrun : F64.run_projection F64.default_projector 1200000%float 3
                       20000%float 10%float 12%float 0%float = F64.Ok l)
        by (vm_compute; reflexivity);
      exists l
  end.
  split; [exact Hrun|].
  exact (run_projection_years _ _ _ _ _ _ _ _ Hrun).
Defined.

Lemma projection_loop_prefix (self : SalaryInvestmentProjector)
    (ihp er od : Q) (k : nat) :
  forall n y g m rit cr r1 r2,
    projection_loop self n y ihp er od g m rit cr = Py.Ok r1 ->
    projection_loop self (n + k) y ihp er od g m rit cr = Py.Ok r2 ->
    r1 = firstn n r2.
Proof.
  induction n as [| n IH]; intros y g m rit cr r1 r2 H1 H2.
  - injection H1 as <-. reflexivity.
  - apply projection_loop_inv in H1 as (res1 & rest1 & Hres1 & Hrest1 & ->).
    change (S n + k)%nat with (S (n + k)) in H2.
    apply projection_loop_inv in H2 as (res2 & rest2 & Hres2 & Hrest2 & ->).
    rewrite Hres1 in Hres2. injection Hres2 as <-.
    cbn [firstn]. f_equal. exact (IH _ _ _ _ _ _ _ Hrest1 Hrest2).
Qed.

(** X10: a longer horizon only appends years.  The records of a run over
    [years1] years are the first [years1] records of the run over
    [years2 >= years1] years from the same start. *)
Theorem run_projection_prefix (self : SalaryInvestmentProjector)
    (start_gross : Q) (years1 years2 : Z) (smi ihp er od : Q)
    (r1 r2 : list Res.t) :
  (years1 <= years2)%Z ->
  run_projection self start_gross years1 smi ihp er od = Py.Ok r1 ->
  run_projection self start_gross years2 smi ihp er od = Py.Ok r2 ->
  r1 = firstn (Z.to_nat years1) r2.
Proof.
  intros Hle H1 H2. unfold run_projection in *.
  replace (Z.to_nat years2)
    with (Z.to_nat years1 + (Z.to_nat years2 - Z.to_nat years1))%nat in H2
    by lia.
  exact (projection_loop_prefix _ _ _ _ _ _ _ _ _ _ _ _ _ H1 H2).
Qed.

Lemma run_projection_prefix_witness :
  exists r1 r2,
    (1 <= 3)%Z /\
    run_projection default_projector 1200000 1 20000 10 12 0 = Py.Ok r1 /\
    run_projection default_projector 1200000 3 20000 10 12 0 = Py.Ok r2 /\
    r1 = firstn (Z.to_nat 1) r2.
Proof.
  assert (Hle : (1 <= 3)%Z) by lia.
  let v1 := eval vm_compute in
              (run_projection default_projector 1200000 1 20000 10 12 0) in
  let v3 := eval vm_compute in
              (run_projection default_projector 1200000 3 20000 10 12 0) in
  match constr:((v1, v3)) with
  | (Py.Ok ?l1, Py.Ok ?l3) =>
      assert (H1 : run_projection default_projector 1200000 1 20000 10 12 0
                   = Py.Ok l1) by (vm_compute; reflexivity);
      assert (H3 : run_projection default_projector 1200000 3 20000 10 12 0
                   = Py.Ok l3) by (vm_compute; reflexivity);
      exists l1, l3
  end.
  split; [exact Hle | split; [exact H1 | split; [exact H3 |]]].
  exact (run_projection_prefix default_projector 1200000 1 3 20000 10 12 0
           _ _ Hle H1 H3).
Defined.



(** X12: from the second year on the gross salary is within the class
    constant [SALARY_CAP] = 5000000, whatever the starting salary and
    whatever [salary_cap] the projector was built with. *)
Theorem gross_capped_after_first_year (self : SalaryInvestmentProjector)
    (start_gross : Q) (years : Z) (smi ihp er od : Q) (results : list Res.t) :
  run_projection self start_gross years smi ihp er od = Py.Ok results ->
  Forall (fun r => (Res.gross_yearly r <= 5000000)%Z) (tl results).
Proof.
  unfold run_projection. destruct (Z.to_nat years) as [| n].
  - intros [= <-]. constructor.
  - intros Hrun.
    apply projection_loop_inv in Hrun as (res & rest & _ & Hrest & ->).
    simpl. apply (projection_loop_gross_capped _ _ _ _ _ _ _ _ _ _ _
                    (min_le_r _ _) Hrest).
Qed.

Lemma gross_capped_after_first_year_witness :
  exists results,
    run_projection default_projector 6000000 2 0 0 0 0 = Py.Ok results /\
    map Res.gross_yearly results = [6000000; 5000000]%Z /\
    Forall (fun r => (Res.gross_yearly r <= 5000000)%Z) (tl results).
Proof.
  let v := eval vm_compute in
             (run_projection default_projector 6000000 2 0 0 0 0) in
  match v with
  | Py.Ok ?l =>
      assert (Hrun : run_projection default_projector 6000000 2 0 0 0 0
                     = Py.Ok l) by (vm_compute; reflexivity);
      exists l
  end.
  split; [exact Hrun | split; [reflexivity|]].
  exact (gross_capped_after_first_year default_projector 6000000 2 0 0 0 0
           _ Hrun).
Defined.

Lemma projection_loop_ignores_salary_cap (tc : TaxCalculator)
    (hike cap1 cap2 icap ihp er od : Q) :
  forall n y g m rit cr,
    projection_loop (mkProjector tc hike cap1 icap) n y ihp er od g m rit cr
    = projection_loop (mkProjector tc hike cap2 icap) n y ihp er od g m rit cr.
Proof.
  induction n as [| n IH]; intros y g m rit cr; [reflexivity|].
  rewrite !projection_loop_step. rewrite IH. reflexivity.
Qed.

(** X13: the configured [salary_cap] has no effect.  Two projectors that
    differ only in [salary_cap] produce the same projection. *)
Theorem run_projection_ignores_salary_cap (tc : TaxCalculator)
    (hike cap1 cap2 icap : Q) (start_gross : Q) (years : Z)
    (smi ihp er od : Q) :
  run_projection (mkProjector tc hike cap1 icap)
                 start_gross years smi ihp er od
  = run_projection (mkProjector tc hike cap2 icap)
                   start_gross years smi ihp er od.
Proof. apply projection_loop_ignores_salary_cap. Qed.

Lemma Sorted_lower_head (x y : Z) (l : list Z) :
  (y <= x)%Z -> Sorted Z.le (x :: l) -> Sorted Z.le (y :: l).
Proof.
  intros Hyx Hs. apply Sorted_inv in Hs as [Hs Hd].
  constructor; [exact Hs|].
  destruct Hd as [| z l Hxz]; constructor. lia.
Qed.

Lemma projection_loop_gross_sorted (self : SalaryInvestmentProjector)
    (ihp er od : Q) :
  0 <= salary_hike_rate self ->
  forall n y g m rit cr results, 0 <= g -> g <= SALARY_CAP ->
    projection_loop self n y ihp er od g m rit cr = Py.Ok results ->
    Sorted Z.le (Py.round g :: map Res.gross_yearly results).
Proof.
  intros Hh.
  induction n as [| n IH]; intros y g m rit cr results Hg0 Hg Hrun.
  - injection Hrun as <-. repeat constructor.
  - apply projection_loop_inv in Hrun as (res & rest & Hres & Hrest & ->).
    rewrite project_year_eq in Hres. injection Hres as <-.
    assert (Hnext : g <= Py.min (g * (1 + salary_hike_rate self)) SALARY_CAP)
      by (apply min_glb; [nra | assumption]).
    apply IH in Hrest; [|lra | apply min_le_r].
    simpl. constructor; [|constructor; lia].
    apply (Sorted_lower_head _ _ _ (round_mono _ _ Hnext) Hrest).
Qed.

(** X14: the reported gross salary never decreases from one year to the
    next, when the hike rate is non-negative and the starting salary lies
    between 0 and [SALARY_CAP]. *)
Theorem gross_yearly_nondecreasing (self : SalaryInvestmentProjector)
    (start_gross : Q) (years : Z) (smi ihp er od : Q) (results : list Res.t) :
  0 <= salary_hike_rate self -> 0 <= start_gross ->
  start_gross <= SALARY_CAP ->
  run_projection self start_gross years smi ihp er od = Py.Ok results ->
  nondecreasing Res.gross_yearly results.
Proof.
  intros Hh Hg0 Hg Hrun i a b Ha Hb.
  pose proof (projection_loop_gross_sorted self ihp er od Hh
                _ _ _ _ _ _ _ Hg0 Hg Hrun) as Hs.
  apply Sorted_inv in Hs as [Hs _].
  apply (Sorted_consecutive Z.le _ Hs i).
  - rewrite nth_error_map, Ha. reflexivity.
  - rewrite nth_error_map, Hb. reflexivity.
Qed.

Lemma gross_yearly_nondecreasing_witness :
  exists results,
    0 <= salary_hike_rate default_projector /\ 0 <= 4900000 /\
    4900000 <= SALARY_CAP /\
    run_projection default_projector 4900000 3 0 0 0 0 = Py.Ok results /\
    map Res.gross_yearly results = [4900000; 5000000; 5000000]%Z /\
    nondecreasing Res.gross_yearly results.
Proof.
  assert (Hh : 0 <= salary_hike_rate default_projector)
    by (simpl; unfold SALARY_HIKE_RATE; lra).
  assert (Hg0 : 0 <= 4900000) by lra.
  assert (Hg : 4900000 <= SALARY_CAP) by (unfold SALARY_CAP; lra).
  let v := eval vm_compute in
             (run_projection default_projector 4900000 3 0 0 0 0) in
  match v with
  | Py.Ok ?l =>
      assert (Hrun : run_projection default_projector 4900000 3 0 0 0 0
                     = Py.Ok l) by (vm_compute; reflexivity);
      exists l
  end.
  split; [exact Hh | split; [exact Hg0 | split; [exact Hg |]]].
  split; [exact Hrun | split; [reflexivity|]].
  exact (gross_yearly_nondecreasing default_projector 4900000 3 0 0 0 0
           _ Hh Hg0 Hg Hrun).
Defined.

(** A starting salary above [SALARY_CAP] is cut down to it in year 2. *)
Example gross_falls_from_above_cap :
  exists results,
    run_projection default_projector 6000000 2 0 0 0 0 = Py.Ok results /\
    map Res.gross_yearly results = [6000000; 5000000]%Z.
Proof. vm_compute. eexists. split; reflexivity. Qed.

Lemma round2_nonneg (x : Q) : 0 <= x -> 0 <= Py.round2 x.
Proof.
  intros Hx. unfold Py.round2.
  assert (H : (0 <= Py.round (x * 100))%Z)
    by (change 0%Z with (Py.round 0); apply round_mono; lra).
  rewrite Zle_Qle in H. change (inject_Z 0) with 0 in H.
  unfold Qdiv. change (/ 100) with (1 # 100). lra.
Qed.

Lemma round2_nonpos (x : Q) : x <= 0 -> Py.round2 x <= 0.
Proof.
  intros Hx. unfold Py.round2.
  assert (H : (Py.round (x * 100) <= 0)%Z)
    by (change 0%Z with (Py.round 0); apply round_mono; lra).
  rewrite Zle_Qle in H. change (inject_Z 0) with 0 in H.
  unfold Qdiv. change (/ 100) with (1 # 100). lra.
Qed.

(** The sign of the exact return percentage is the sign of the gain. *)
Lemma return_percentage_sign (self : SalaryInvestmentProjector)
    (m rit cr er : Q) :
  (next_running_invest_total self m rit <= next_cumulative_return self m cr er
   -> 0 <= return_percentage self m rit cr er) /\
  (next_cumulative_return self m cr er <= next_running_invest_total self m rit
   -> return_percentage self m rit cr er <= 0).
Proof.
  unfold return_percentage.
  set (i := next_running_invest_total self m rit).
  set (v := next_cumulative_return self m cr er). clearbody i v.
  destruct (Py.ltb 0 i) eqn:E; split_cmp; [|split; intros; lra].
  pose proof (Qinv_lt_0_compat i E) as Hinv.
  unfold Qdiv. split; intros H.
  - assert (0 <= (v - i) * / i) by nra. lra.
  - assert (0 <= (i - v) * / i) by nra. lra.
Qed.

(** X15: with a non-negative expected return the portfolio is never worth
    less than what was invested.  Under non-negative starting investment and
    cap and a hike of at least -100 percent, every record reports
    [cumulative_return >= running_invest_total] and a non-negative
    [return_percentage]. *)
Theorem portfolio_not_below_invested (self : SalaryInvestmentProjector)
    (start_gross : Q) (years : Z) (smi ihp er od : Q) (results : list Res.t) :
  0 <= smi -> 0 <= invest_monthly_cap self -> -100 <= ihp -> 0 <= er ->
  run_projection self start_gross years smi ihp er od = Py.Ok results ->
  Forall (fun r =>
            (Res.running_invest_total r <= Res.cumulative_return r)%Z /\
            0 <= Res.return_percentage r) results.
Proof.
  intros Hm Hcap Hhike Her.
  apply (projection_loop_Forall self ihp er od
           (fun _ m rit cr => 0 <= m /\ 0 <= rit /\ rit <= cr)).
  - intros r y H. exact H.
  - intros g m rit cr (Hm' & Hrit & Hcr).
    pose proof (min_glb m (invest_monthly_cap self) 0 Hm' Hcap) as Hc.
    assert (Hrate : 0 <= er / 100)
      by (unfold Qdiv; change (/ 100) with (1 # 100); lra).
    assert (Hgain : next_running_invest_total self m rit
                    <= next_cumulative_return self m cr er).
    { unfold next_running_invest_total, next_cumulative_return,
        total_invest_yearly, monthly_investment_capped. nra. }
    split.
    + split; [|split].
      * apply min_glb; [|assumption].
        assert (0 <= 1 + ihp / 100)
          by (unfold Qdiv; change (/ 100) with (1 # 100); lra).
        nra.
      * unfold next_running_invest_total, total_invest_yearly,
          monthly_investment_capped. lra.
      * exact Hgain.
    + intros res Hres. rewrite project_year_eq in Hres. injection Hres as <-.
      simpl. split; [apply round_mono, Hgain|].
      apply round2_nonneg, return_percentage_sign, Hgain.
  - repeat split; lra.
Qed.

Lemma portfolio_not_below_invested_witness :
  exists results,
    0 <= 20000 /\ 0 <= invest_monthly_cap default_projector /\
    -100 <= 10 /\ 0 <= 12 /\
    run_projection default_projector 1200000 2 20000 10 12 0
      = Py.Ok results /\
    map Res.running_invest_total results = [240000; 504000]%Z /\
    map Res.cumulative_return results = [268800; 596736]%Z /\
    Forall (fun r =>
              (Res.running_invest_total r <= Res.cumulative_return r)%Z /\
              0 <= Res.return_percentage r) results.
Proof.
  assert (H0 : 0 <= 20000) by lra.
  assert (H1 : 0 <= invest_monthly_cap default_projector)
    by (simpl; unfold INVEST_MONTHLY_CAP; lra).
  assert (H2 : -100 <= 10) by lra.
  assert (H3 : 0 <= 12) by lra.
  let v := eval vm_compute in
             (run_projection default_projector 1200000 2 20000 10 12 0) in
  match v with
  | Py.Ok ?l =>
      assert (Hrun : run_projection default_projector 1200000 2 20000 10 12 0
                     = Py.Ok l) by (vm_compute; reflexivity);
      exists l
  end.
  split; [exact H0 | split; [exact H1 | split; [exact H2 |]]].
  split; [exact H3 | split; [exact Hrun |]].
  split; [reflexivity | split; [reflexivity |]].
  exact (portfolio_not_below_invested default_projector 1200000 2 20000 10
           12 0 _ H0 H1 H2 H3 Hrun).
Defined.

(** Under a return between -100 and 0 percent no record shows a gain. *)
Lemma run_gain_nonpos (self : SalaryInvestmentProjector)
    (start_gross : Q) (years : Z) (smi ihp er od : Q) (results : list Res.t) :
  0 <= smi -> 0 <= invest_monthly_cap self -> -100 <= ihp ->
  -100 <= er -> er <= 0 ->
  run_projection self start_gross years smi ihp er od = Py.Ok results ->
  Forall (fun r =>
            (Res.cumulative_return r <= Res.running_invest_total r)%Z /\
            Res.return_percentage r <= 0) results.
Proof.
  intros Hm Hcap Hhike Her1 Her2.
  apply (projection_loop_Forall self ihp er od
           (fun _ m rit cr => 0 <= m /\ 0 <= cr /\ cr <= rit)).
  - intros r y H. exact H.
  - intros g m rit cr (Hm' & Hcr & Hrit).
    pose proof (min_glb m (invest_monthly_cap self) 0 Hm' Hcap) as Hc.
    assert (Hrate : 0 <= 1 + er / 100 <= 1)
      by (unfold Qdiv; change (/ 100) with (1 # 100); lra).
    assert (Hloss : 0 <= next_cumulative_return self m cr er /\
                    next_cumulative_return self m cr er
                    <= next_running_invest_total self m rit).
    { unfold next_running_invest_total, next_cumulative_return,
        total_invest_yearly, monthly_investment_capped. split; nra. }
    split.
    + split; [|split].
      * apply min_glb; [|assumption].
        assert (0 <= 1 + ihp / 100)
          by (unfold Qdiv; change (/ 100) with (1 # 100); lra).
        nra.
      * apply Hloss.
      * apply Hloss.
    + intros res Hres. rewrite project_year_eq in Hres. injection Hres as <-.
      simpl. split; [apply round_mono, Hloss|].
      apply round2_nonpos, return_percentage_sign, Hloss.
  - repeat split; lra.
Qed.

(** X16: with an expected return between -100 and 0 percent the portfolio
    is never worth more than what was invested: every record reports
    [cumulative_return <= running_invest_total] and a [return_percentage]
    of at most 0. *)
Theorem portfolio_not_above_invested (self : SalaryInvestmentProjector)
    (start_gross : Q) (years : Z) (smi ihp er od : Q) (results : list Res.t) :
  0 <= smi -> 0 <= invest_monthly_cap self -> -100 <= ihp ->
  -100 <= er -> er <= 0 ->
  run_projection self start_gross years smi ihp er od = Py.Ok results ->
  Forall (fun r =>
            (Res.cumulative_return r <= Res.running_invest_total r)%Z /\
            Res.return_percentage r <= 0) results.
Proof.
  exact (run_gain_nonpos self start_gross years smi ihp er od results).
Qed.

Lemma portfolio_not_above_invested_witness :
  exists results,
    0 <= 20000 /\ 0 <= invest_monthly_cap default_projector /\
    -100 <= 10 /\ -100 <= -5 /\ -5 <= 0 /\
    run_projection default_projector 1200000 2 20000 10 (-5) 0
      = Py.Ok results /\
    map Res.running_invest_total results = [240000; 504000]%Z /\
    map Res.cumulative_return results = [228000; 467400]%Z /\
    Forall (fun r =>
              (Res.cumulative_return r <= Res.running_invest_total r)%Z /\
              Res.return_percentage r <= 0) results.
Proof.
  assert (H0 : 0 <= 20000) by lra.
  assert (H1 : 0 <= invest_monthly_cap default_projector)
    by (simpl; unfold INVEST_MONTHLY_CAP; lra).
  assert (H2 : -100 <= 10) by lra.
  assert (H3 : -100 <= -5) by lra.
  assert (H4 : -5 <= 0) by lra.
  let v := eval vm_compute in
             (run_projection default_projector 1200000 2 20000 10 (-5) 0) in
  match v with
  | Py.Ok ?l =>
      assert (Hrun : run_projection default_projector 1200000 2 20000 10
                       (-5) 0 = Py.Ok l) by (vm_compute; reflexivity);
      exists l
  end.
  split; [exact H0 | split; [exact H1 | split; [exact H2 |]]].
  split; [exact H3 | split; [exact H4 | split; [exact Hrun |]]].
  split; [reflexivity | split; [reflexivity |]].
  exact (portfolio_not_above_invested default_projector 1200000 2 20000 10
           (-5) 0 _ H0 H1 H2 H3 H4 Hrun).
Defined.





(** ** Properties of the reports and analytics *)

Lemma filter_all {A : Type} (f : A -> bool) (l : list A) :
  (forall x, In x l -> f x = true) -> filter f l = l.
Proof.
  induction l as [| a l IH]; intros H; simpl; [reflexivity|].
  rewrite (H a (or_introl eq_refl)), IH; [reflexivity|].
  intros x Hx. apply H. now right.
Qed.

(** X19: the column order of [save_report_excel] loses nothing.  For column
    labels without repetition that include [year], the reordered labels are
    a permutation of the columns that starts with [year] and keeps the other
    labels in their order. *)
Theorem excel_cols_permutation (columns : list string) :
  NoDup columns -> In "year"%string columns ->
  Permutation (excel_cols columns) columns /\
  hd_error (excel_cols columns) = Some "year"%string /\
  tl (excel_cols columns)
  = filter (fun c => negb (String.eqb c "year")) columns.
Proof.
  intros Hnd Hin. split; [|split; reflexivity].
  unfold excel_cols.
  induction columns as [| c l IH]; [contradiction|].
  inversion Hnd as [| ? ? Hc Hl]; subst. simpl.
  destruct (String.eqb_spec c "year") as [-> | Hne]; simpl.
  - rewrite filter_all; [reflexivity|].
    intros x Hx. destruct (String.eqb_spec x "year") as [-> | _];
      [contradiction | reflexivity].
  - destruct Hin as [-> | Hin]; [contradiction|].
    rewrite perm_swap. constructor. exact (IH Hl Hin).
Qed.

Lemma excel_cols_permutation_witness :
  NoDup result_keys /\ In "year"%string result_keys /\
  Permutation (excel_cols result_keys) result_keys /\
  hd_error (excel_cols result_keys) = Some "year"%string /\
  tl (excel_cols result_keys)
  = filter (fun c => negb (String.eqb c "year")) result_keys.
Proof.
  assert (Hin : In "year"%string result_keys) by (left; reflexivity).
  assert (Hnd : NoDup result_keys).
  { unfold result_keys.
    repeat (constructor;
            [simpl; intros H;
             repeat (destruct H as [H | H]; [discriminate H|]); exact H|]).
    constructor. }
  split; [exact Hnd | split; [exact Hin |]].
  exact (excel_cols_permutation result_keys Hnd Hin).
Defined.











Lemma last_nonempty_default {A : Type} (x : A) (l : list A) (d1 d2 : A) :
  last (x :: l) d1 = last (x :: l) d2.
Proof.
  revert x. induction l as [| y l IH]; intros x; [reflexivity|].
  change (last (y :: l) d1 = last (y :: l) d2). apply IH.
Qed.

Lemma yearly_return_from_sum (projections : list Res.t) :
  forall prev_cum,
    fold_right Z.add 0%Z (yearly_return_from prev_cum projections)
    = (last (map Res.cumulative_return projections) prev_cum - prev_cum
       - fold_right Z.add 0%Z (map Res.total_invest_yearly projections))%Z.
Proof.
  induction projections as [| p rest IH]; intros prev_cum.
  - simpl. lia.
  - cbn [yearly_return_from map fold_right]. rewrite IH.
    destruct rest as [| q rest']; [simpl; lia|].
    cbn [map].
    change (last (Res.cumulative_return p
                  :: Res.cumulative_return q
                     :: map Res.cumulative_return rest') prev_cum)
      with (last (Res.cumulative_return q
                  :: map Res.cumulative_return rest') prev_cum).
    rewrite (last_nonempty_default _ _ (Res.cumulative_return p) prev_cum).
    lia.
Qed.

(** X23: the year-wise returns add up.  The [yearly_return] column sums to
    the last cumulative portfolio value minus the sum of the yearly
    investments. *)
Theorem yearly_return_sum (projections : list Res.t) :
  fold_right Z.add 0%Z (yearly_return projections)
  = (last (map Res.cumulative_return projections) 0
     - fold_right Z.add 0%Z (map Res.total_invest_yearly projections))%Z.
Proof.
  unfold yearly_return. rewrite yearly_return_from_sum. lia.
Qed.

(** ** Properties of the table of [save_report_text] *)

Lemma string_length_append (s1 s2 : string) :
  String.length (s1 ++ s2) = (String.length s1 + String.length s2)%nat.
Proof. induction s1 as [| c s1 IH]; simpl; [reflexivity | now rewrite IH]. Qed.

Lemma replicate_length (c : ascii) (n : nat) :
  String.length (TextReport.replicate c n) = n.
Proof. induction n as [| n IH]; simpl; [reflexivity | now rewrite IH]. Qed.

(** Padding never cuts: the field is as long as the longer of the value and
    the width. *)
Lemma ljust_length (s : string) (w : nat) :
  String.length (TextReport.ljust s w) = Nat.max (String.length s) w.
Proof.
  unfold TextReport.ljust. rewrite string_length_append, replicate_length.
  lia.
Qed.

Lemma row_length (format_2f : Q -> string) (p : Res.t) :
  String.length (TextReport.row format_2f p)
  = (Nat.max (String.length (str (Res.year p))) 5
     + Nat.max (String.length (str (Res.gross_yearly p))) 10
     + Nat.max (String.length (str (Res.gross_monthly p))) 10
     + Nat.max (String.length (str (Res.tax_yearly p))) 8
     + Nat.max (String.length (str (Res.tax_monthly p))) 8
     + Nat.max (String.length (str (Res.net_salary_yearly p))) 8
     + Nat.max (String.length (str (Res.net_monthly p))) 8
     + Nat.max (String.length (str (Res.common_ded_month p))) 14
     + Nat.max (String.length (str (Res.other_deductions p))) 13
     + Nat.max (String.length (str (Res.total_invest_yearly p))) 10
     + Nat.max (String.length (str (Res.monthly_investment p))) 10
     + Nat.max (String.length (format_2f (Res.invest_percentage p))) 10
     + Nat.max (String.length (str (Res.salary_left_month p))) 13
     + Nat.max (String.length (Res.remarks p)) 8
     + Nat.max (String.length (str (Res.running_invest_total p))) 16
     + Nat.max (String.length (str (Res.cumulative_return p))) 18
     + Nat.max (String.length (format_2f (Res.return_percentage p))) 12
     + 16)%nat.
Proof.
  unfold TextReport.row.
  repeat rewrite string_length_append. repeat rewrite ljust_length.
  change (String.length "|") with 1%nat.
  change (TextReport.width "year") with 5%nat.
  change (TextReport.width "gross_yearly") with 10%nat.
  change (TextReport.width "gross_monthly") with 10%nat.
  change (TextReport.width "tax_yearly") with 8%nat.
  change (TextReport.width "tax_monthly") with 8%nat.
  change (TextReport.width "net_salary_yearly") with 8%nat.
  change (TextReport.width "net_monthly") with 8%nat.
  change (TextReport.width "common_ded_month") with 14%nat.
  change (TextReport.width "other_deductions") with 13%nat.
  change (TextReport.width "total_invest_yearly") with 10%nat.
  change (TextReport.width "monthly_investment") with 10%nat.
  change (TextReport.width "invest_percentage") with 10%nat.
  change (TextReport.width "salary_left_month") with 13%nat.
  change (TextReport.width "remarks") with 8%nat.
  change (TextReport.width "running_invest_total") with 16%nat.
  change (TextReport.width "cumulative_return") with 18%nat.
  change (TextReport.width "return_percentage") with 12%nat.
  lia.
Qed.

(** X24: the width of the text table.  A data row is never shorter than 197
    characters and is exactly 197 characters long when every value fits its
    column, whereas the header line and the dashed rule are 198 characters
    long: the label of the [cumulative_return] column is one character
    wider than its column. *)
Theorem text_table_row_width (format_2f : Q -> string) (p : Res.t) :
  String.length TextReport.header = 198%nat /\
  String.length TextReport.rule = 198%nat /\
  (197 <= String.length (TextReport.row format_2f p))%nat /\
  (TextReport.fits format_2f p ->
   String.length (TextReport.row format_2f p) = 197%nat).
Proof.
  split; [reflexivity|]. split; [reflexivity|].
  rewrite row_length. split.
  - repeat match goal with
           | |- context [Nat.max ?a ?b] =>
               pose proof (Nat.le_max_r a b);
               generalize dependent (Nat.max a b); intros
           end.
    lia.
  - unfold TextReport.fits. intros H.
    repeat match type of H with
           | _ /\ _ => let H1 := fresh in destruct H as [H1 H]
           end.
    repeat rewrite Nat.max_r by assumption. reflexivity.
Qed.

Lemma text_table_row_width_witness :
  exists p,
    run_projection default_projector 1200000 1 20000 10 12 0 = Py.Ok [p] /\
    TextReport.fits fixed2 p /\
    String.length (TextReport.row fixed2 p) = 197%nat /\
    String.length TextReport.header = 198%nat.
Proof.
  let v := eval vm_compute in
             (run_projection default_projector 1200000 1 20000 10 12 0) in
  match v with
  | Py.Ok [?r] =>
      assert (Hrun : run_projection default_projector 1200000 1 20000 10 12 0
                     = Py.Ok [r]) by (vm_compute; reflexivity);
      exists r;
      assert (Hfit : TextReport.fits fixed2 r)
        by (vm_compute; repeat split; repeat constructor);
      destruct (text_table_row_width fixed2 r) as (Hh & _ & _ & Hrow)
  end.
  split; [exact Hrun | split; [exact Hfit | split; [exact (Hrow Hfit) |]]].
  exact Hh.
Defined.

(** ** Further properties of the yearly records *)

(** X25: the tax never exceeds the income.  When the bracket rates lie
    between 0 and [R], the top rate with cess is at most 1 and the standard
    deduction is non-negative, the tax on a non-negative gross income is at
    most that income: the net salary is not negative. *)
Theorem tax_never_exceeds_gross (tc : TaxCalculator) (R gross : Q) :
  rates_within R (slabs tc) -> 0 <= R -> 0 <= cess_rate tc ->
  R * (1 + cess_rate tc) <= 1 -> 0 <= std_deduction tc -> 0 <= gross ->
  compute_tax tc gross <= gross /\ 0 <= net_of tc gross.
Proof.
  intros Hr HR Hc Htop Hstd Hg.
  pose proof (compute_tax_le_top_rate tc R gross Hr HR Hc) as H.
  assert (Hb : 0 <= taxable_base tc gross <= gross)
    by (unfold taxable_base, Py.max; split_cmp; lra).
  assert (compute_tax tc gross <= gross) by nra.
  unfold net_of. split; lra.
Qed.

Lemma tax_never_exceeds_gross_witness :
  let tc := TaxCalculator_init None None None in
  rates_within 0.30 (slabs tc) /\ 0 <= 0.30 /\ 0 <= cess_rate tc /\
  0.30 * (1 + cess_rate tc) <= 1 /\ 0 <= std_deduction tc /\
  0 <= 1000000 /\
  compute_tax tc 1000000 <= 1000000 /\ 0 <= net_of tc 1000000.
Proof.
  intros tc.
  assert (HR : 0 <= 0.30) by lra.
  assert (Hc : 0 <= cess_rate tc) by (simpl; unfold CESS_RATE; lra).
  assert (Htop : 0.30 * (1 + cess_rate tc) <= 1)
    by (simpl; unfold CESS_RATE; lra).
  assert (Hstd : 0 <= std_deduction tc)
    by (simpl; unfold STD_DEDUCTION; lra).
  assert (Hg : 0 <= 1000000) by lra.
  split; [exact default_rates_within | split; [exact HR |]].
  split; [exact Hc | split; [exact Htop | split; [exact Hstd |]]].
  split; [exact Hg|].
  exact (tax_never_exceeds_gross tc 0.30 1000000 default_rates_within
           HR Hc Htop Hstd Hg).
Defined.





Lemma StronglySorted_nth (l : list Z) :
  StronglySorted Z.le l ->
  forall i j a b, (i <= j)%nat ->
    nth_error l i = Some a -> nth_error l j = Some b -> (a <= b)%Z.
Proof.
  induction 1 as [| x l Hs IH Hall]; intros i j a b Hij Ha Hb.
  - destruct i; discriminate.
  - destruct i as [| i], j as [| j]; simpl in Ha, Hb.
    + injection Ha as <-. injection Hb as <-. lia.
    + injection Ha as <-. apply nth_error_In in Hb.
      rewrite Forall_forall in Hall. now apply Hall.
    + lia.
    + apply (IH i j); [lia | assumption | assumption].
Qed.

(** X28: once the gross salary reaches the ceiling it stays there.  With a
    non-negative hike rate and a starting salary between 0 and
    [SALARY_CAP], a year that reports a gross salary of 5000000 is followed
    only by years that report 5000000. *)
Theorem gross_stays_at_cap (self : SalaryInvestmentProjector)
    (start_gross : Q) (years : Z) (smi ihp er od : Q) (results : list Res.t)
    (i j : nat) (a b : Res.t) :
  0 <= salary_hike_rate self -> 0 <= start_gross ->
  start_gross <= SALARY_CAP ->
  run_projection self start_gross years smi ihp er od = Py.Ok results ->
  (i <= j)%nat -> nth_error results i = Some a ->
  nth_error results j = Some b ->
  Res.gross_yearly a = 5000000%Z -> Res.gross_yearly b = 5000000%Z.
Proof.
  intros Hh Hg0 Hg Hrun Hij Ha Hb Hcap.
  pose proof (projection_loop_gross_sorted self ihp er od Hh
                _ _ _ _ _ _ _ Hg0 Hg Hrun) as Hs.
  apply Sorted_inv in Hs as [Hs _].
  apply Sorted_StronglySorted in Hs;
    [|intros x y z; apply Z.le_trans].
  assert (Hle : (Res.gross_yearly a <= Res.gross_yearly b)%Z).
  { apply (StronglySorted_nth _ Hs i j); [exact Hij | |];
      rewrite nth_error_map; [rewrite Ha | rewrite Hb]; reflexivity. }
  pose proof (projection_loop_gross_capped self ihp er od
                _ _ _ _ _ _ _ Hg Hrun) as Hall.
  rewrite Forall_forall in Hall.
  pose proof (Hall b (nth_error_In _ _ Hb)). lia.
Qed.

Lemma gross_stays_at_cap_witness :
  exists results a b,
    0 <= salary_hike_rate default_projector /\ 0 <= 4900000 /\
    4900000 <= SALARY_CAP /\
    run_projection default_projector 4900000 3 0 0 0 0 = Py.Ok results /\
    (1 <= 2)%nat /\ nth_error results 1 = Some a /\
    nth_error results 2 = Some b /\
    Res.gross_yearly a = 5000000%Z /\ Res.gross_yearly b = 5000000%Z.
Proof.
  assert (Hh : 0 <= salary_hike_rate default_projector)
    by (simpl; unfold SALARY_HIKE_RATE; lra).
  assert (Hg0 : 0 <= 4900000) by lra.
  assert (Hg : 4900000 <= SALARY_CAP) by (unfold SALARY_CAP; lra).
  assert (Hij : (1 <= 2)%nat) by lia.
  let v := eval vm_compute in
             (run_projection default_projector 4900000 3 0 0 0 0) in
  match v with
  | Py.Ok [?r1; ?r2; ?r3] =>
      assert (Hrun : run_projection default_projector 4900000 3 0 0 0 0
                     = Py.Ok [r1; r2; r3]) by (vm_compute; reflexivity);
      exists [r1; r2; r3], r2, r3;
      assert (Ha : nth_error [r1; r2; r3] 1 = Some r2) by reflexivity;
      assert (Hb : nth_error [r1; r2; r3] 2 = Some r3) by reflexivity;
      assert (Hcap : Res.gross_yearly r2 = 5000000%Z) by reflexivity
  end.
  split; [exact Hh | split; [exact Hg0 | split; [exact Hg |]]].
  split; [exact Hrun | split; [exact Hij | split; [exact Ha |]]].
  split; [exact Hb | split; [exact Hcap |]].
  exact (gross_stays_at_cap default_projector 4900000 3 0 0 0 0 _ 1 2 _ _
           Hh Hg0 Hg Hrun Hij Ha Hb Hcap).
Defined.
